(** * graphrag MCP glue: schema translator, connection manager, retrieval tool

    A shallow embedding of [client.py] (class [MCPClient]) and
    [rag_server.py] (tool [rag_ML]), and the properties their
    specification states about them.

    - Python values are an inductive type; a [dict] with string keys is a
      [gmap string value].
    - Python exceptions are values of [exn]; a computation that may raise
      returns [exc A].
    - Code that mutates [self] or talks to the MCP / graphrag libraries runs
      in the state-and-exception monad [M]; the libraries are an
      environment whose answers may depend on everything that happened
      before.
    - The [print] calls are left out: they report progress and take no part
      in what the methods return or change. *)

From Stdlib Require Import ZArith String List Lia.
From Stdlib Require Import Floats.SpecFloat.
From stdpp Require Import base option list strings gmap.

Local Open Scope list_scope.

(** ** Python values *)

(** [float] is an IEEE 754 value, [int] is unbounded; a [dict] is keyed by
    strings, as every object of parsed JSON is. *)
#[warnings="-register-all"]
Inductive value : Type :=
  | VNone
  | VBool (b : bool)
  | VInt (n : Z)
  | VFloat (x : spec_float)
  | VStr (s : string)
  | VList (l : list value)
  | VDict (d : gmap string value).

(** ** Exceptions *)

(** The subclasses of [Exception] the two programs raise or tell apart.
    [LibraryError] is any other [Exception] coming out of a library call.
    Signals below [BaseException] only (cancellation, keyboard interrupt)
    are not failures and stay outside the model. *)
Inductive exn : Type :=
  | KeyError (key : string)
  | TypeError (msg : string)
  | AttributeError (msg : string)
  | ValueError (msg : string)
  | FileNotFoundError (msg : string)
  | LibraryError (cls msg : string).

Inductive exc (A : Type) : Type :=
  | Return (a : A)
  | Raise (e : exn).
Arguments Return {A} a.
Arguments Raise {A} e.

#[global] Instance exc_ret : MRet exc := @Return.
#[global] Instance exc_bind : MBind exc := λ A B f m,
  match m with
  | Return a => f a
  | Raise e => Raise e
  end.

#[global] Instance exc_fmap : FMap exc := λ A B f m,
  match m with
  | Return a => Return (f a)
  | Raise e => Raise e
  end.

(** [except FileNotFoundError] *)
Definition is_FileNotFoundError (e : exn) : bool :=
  match e with
  | FileNotFoundError _ => true
  | _ => false
  end.

(** ** Operations on a [dict] *)

(** [k in d] *)
Definition contains (k : string) (d : gmap string value) : bool :=
  match d !! k with
  | Some _ => true
  | None => false
  end.

(** [d[k]] *)
Definition getitem (d : gmap string value) (k : string) : exc value :=
  match d !! k with
  | Some v => Return v
  | None => Raise (KeyError k)
  end.

(** [d.get(k, dflt)] *)
Definition get (d : gmap string value) (k : string) (dflt : value) : value :=
  default dflt (d !! k).

(** [d[k1][k2] = v]: the object stored under [k1] is updated in place. *)
Definition setitem2 (d : gmap string value) (k1 k2 : string) (v : value)
  : exc (gmap string value) :=
  inner ← getitem d k1;
  match inner with
  | VDict p => Return (<[k1 := VDict (<[k2 := v]> p)]> d)
  | _ => Raise (TypeError "object does not support item assignment")
  end.

(** ** [MCPClient.transform_json] *)

Module Translator.

(** The [parameters] part of the loop body: runs when the function has a
    dict under ["input_schema"], and leaves [new_func] alone otherwise. *)
Definition fill_parameters (old_func new_func : gmap string value)
  : exc (gmap string value) :=
  if contains "input_schema" old_func then
    input_schema ← getitem old_func "input_schema";
    match input_schema with
    | VDict _ =>
        old_schema ← getitem old_func "input_schema";
        match old_schema with
        | VDict old_schema =>
            new_func ← setitem2 new_func "parameters" "type"
                          (get old_schema "type" (VStr "object"));
            new_func ← setitem2 new_func "parameters" "properties"
                          (get old_schema "properties" (VDict ∅));
            if contains "required" old_schema then
              required ← getitem old_schema "required";
              setitem2 new_func "parameters" "required" required
            else Return new_func
        | _ => Raise (AttributeError "object has no attribute 'get'")
        end
    | _ => Return new_func
    end
  else Return new_func.

(** One turn of the [for] loop: [None] is [continue], [Some x] is
    [result.append(x)]. *)
Definition transform_item (item : value) : exc (option value) :=
  match item with
  | VDict item =>
      if negb (contains "type" item) || negb (contains "function" item)
      then Return None
      else
        old_func ← getitem item "function";
        match old_func with
        | VDict old_func =>
            if negb (contains "name" old_func)
               || negb (contains "description" old_func)
            then Return None
            else
              name ← getitem old_func "name";
              description ← getitem old_func "description";
              let new_func : gmap string value :=
                {[ "name" := name;
                   "description" := description;
                   "parameters" := VDict ∅ ]} in
              new_func ← fill_parameters old_func new_func;
              Return (Some (VDict {[ "type" := VStr "function";
                                     "function" := VDict new_func ]}))
        | _ => Return None
        end
  | _ => Return None
  end.

(** The loop, with [result] as its accumulator. *)
Fixpoint transform_loop (json2_data : list value) (result : list value)
  : exc (list value) :=
  match json2_data with
  | [] => Return result
  | item :: rest =>
      r ← transform_item item;
      match r with
      | None => transform_loop rest result
      | Some new_item => transform_loop rest (result ++ [new_item])
      end
  end.

Definition transform_json (json2_data : list value) : exc (list value) :=
  transform_loop json2_data [].

End Translator.

(** ** State and exceptions *)

(** A method that mutates its object and may raise: the state it leaves
    behind is kept on both outcomes, as in Python. *)
Definition M (S A : Type) : Type := S → exc A * S.

#[global] Instance M_ret {S} : MRet (M S) := λ A a s, (Return a, s).
#[global] Instance M_bind {S} : MBind (M S) := λ A B f m s,
  match m s with
  | (Return a, s') => f a s'
  | (Raise e, s') => (Raise e, s')
  end.

Definition raise {S A} (e : exn) : M S A := λ s, (Raise e, s).
Definition gets {S A} (f : S → A) : M S A := λ s, (Return (f s), s).
Definition modify {S} (f : S → S) : M S unit := λ s, (Return tt, f s).

(** [try: body  except Exception as e: handler e] *)
Definition try_except {S A} (body : M S A) (handler : exn → M S A) : M S A :=
  λ s,
  match body s with
  | (Return a, s') => (Return a, s')
  | (Raise e, s') => handler e s'
  end.

(** [s.endswith(suffix)]: some tail of [s] is [suffix].  Strings are
    sequences of UTF-8 bytes; for an ASCII suffix this is the same test as
    on code points. *)
Fixpoint endswith (s suffix : string) : bool :=
  if String.eqb s suffix then true
  else match s with
       | EmptyString => false
       | String _ s' => endswith s' suffix
       end.

(** ** [MCPClient]: the connection manager *)

Module Client.

(** A handle on one end of the byte-stream transport. *)
Definition Stream : Type := N.

Record StdioServerParameters : Type := {
  command : string;
  args : list string;
  env : option (gmap string string)
}.

(** [ClientSession(read, write)] *)
Record ClientSession : Type := {
  read_stream : Stream;
  write_stream : Stream
}.

(** [types.Tool] *)
Record Tool : Type := {
  name : string;
  description : string;
  inputSchema : value
}.

(** The client object [OpenAI(api_key=..., base_url=...)] returns. *)
Record OpenAI : Type := {
  api_key : string;
  api_base_url : option string
}.

(** A context manager the exit stack has entered and will exit. *)
Inductive resource : Type :=
  | Transport (server_params : StdioServerParameters) (read write : Stream)
  | Session (sess : ClientSession).

(** What the client asks of the world outside, in the order it asks. *)
Inductive event : Type :=
  | EvSpawn (server_params : StdioServerParameters)
  | EvSessionEnter (sess : ClientSession)
  | EvInitialize (sess : ClientSession)
  | EvListTools (sess : ClientSession)
  | EvExit (r : resource).

(** The [mcp] library and the processes behind it.  Each answer may depend
    on the whole history of earlier requests; each may be an exception.
    [exit_context] is the [__aexit__] of an entered context manager: given
    the exception in flight, if there is one, it tells whether it
    suppresses that exception, or raises one of its own. *)
Record Library : Type := {
  stdio_client : list event → StdioServerParameters → exc (Stream * Stream);
  session_enter : list event → ClientSession → exc unit;
  initialize : list event → ClientSession → exc unit;
  list_tools : list event → ClientSession → exc (list Tool);
  exit_context : list event → resource → option exn → exc bool
}.

(** The attributes of [self].  [exit_stack] holds the entered context
    managers, the latest first. *)
Record MCPClient : Type := {
  exit_stack : list resource;
  openai_api_key : string;
  base_url : option string;
  model : option string;
  client : OpenAI;
  session : option ClientSession;
  stdio_read : option Stream;
  stdio_write : option Stream
}.

Record state : Type := {
  self : MCPClient;
  history : list event
}.

Definition with_exit_stack (v : list resource) (c : MCPClient) : MCPClient :=
  {| exit_stack := v; openai_api_key := openai_api_key c;
     base_url := base_url c; model := model c; client := client c;
     session := session c; stdio_read := stdio_read c;
     stdio_write := stdio_write c |}.

Definition with_session (v : option ClientSession) (c : MCPClient) : MCPClient :=
  {| exit_stack := exit_stack c; openai_api_key := openai_api_key c;
     base_url := base_url c; model := model c; client := client c;
     session := v; stdio_read := stdio_read c;
     stdio_write := stdio_write c |}.

Definition with_stdio_read (v : option Stream) (c : MCPClient) : MCPClient :=
  {| exit_stack := exit_stack c; openai_api_key := openai_api_key c;
     base_url := base_url c; model := model c; client := client c;
     session := session c; stdio_read := v;
     stdio_write := stdio_write c |}.

Definition with_stdio_write (v : option Stream) (c : MCPClient) : MCPClient :=
  {| exit_stack := exit_stack c; openai_api_key := openai_api_key c;
     base_url := base_url c; model := model c; client := client c;
     session := session c; stdio_read := stdio_read c;
     stdio_write := v |}.

(** [self.attr = v] *)
Definition assign (f : MCPClient → MCPClient) : M state unit :=
  modify (λ st, {| self := f (self st); history := history st |}).

(** A request to the library: it is recorded, and answered from what
    happened before it. *)
Definition request {A} (ev : event) (answer : list event → exc A) : M state A :=
  λ st, (answer (history st),
         {| self := self st; history := history st ++ [ev] |}).

(** [MCPClient.__init__], given the process environment (after
    [load_dotenv]) and the constructor of the [openai] library,
    [OpenAI(api_key=..., base_url=...)], which may reject its arguments. *)
Definition init (new_OpenAI : string → option string → exc OpenAI)
    (environ : gmap string string) : exc MCPClient :=
  let openai_api_key := environ !! "OPENAI_API_KEY" in
  let base_url := environ !! "BASE_URL" in
  let model := environ !! "MODEL" in
  match openai_api_key with
  | None | Some EmptyString =>
      Raise (ValueError
        "❌ 未找到 OpenAI API Key，请在 .env 文件中设置 OPENAI_API_KEY")
  | Some key =>
      client ← new_OpenAI key base_url;
      Return {| exit_stack := []; openai_api_key := key;
                base_url := base_url; model := model;
                client := client;
                session := None; stdio_read := None; stdio_write := None |}
  end.

(** [await self.exit_stack.enter_async_context(stdio_client(server_params))]:
    the context manager is pushed only when entering it succeeds. *)
Definition enter_stdio_client (lib : Library) (server_params : StdioServerParameters)
  : M state (Stream * Stream) :=
  stdio_transport ← request (EvSpawn server_params)
                      (λ h, stdio_client lib h server_params);
  assign (λ c, with_exit_stack
                 (Transport server_params stdio_transport.1 stdio_transport.2
                    :: exit_stack c) c);;
  mret stdio_transport.

(** [await self.exit_stack.enter_async_context(ClientSession(read, write))] *)
Definition enter_client_session (lib : Library) (sess : ClientSession)
  : M state ClientSession :=
  request (EvSessionEnter sess) (λ h, session_enter lib h sess);;
  assign (λ c, with_exit_stack (Session sess :: exit_stack c) c);;
  mret sess.

(** The loop of [AsyncExitStack.__aexit__]: the context managers are popped
    and exited, the latest first, each one told of the exception in flight.
    One that answers true suppresses it; one that raises puts its own
    exception in flight; the others leave it as it is.  Every context
    manager is exited, whatever the earlier ones did. *)
Fixpoint exit_all (lib : Library) (stack : list resource)
    (in_flight : option exn) (h : list event) : option exn * list event :=
  match stack with
  | [] => (in_flight, h)
  | r :: rest =>
      let in_flight :=
        match exit_context lib h r in_flight with
        | Return true => None
        | Return false => in_flight
        | Raise e => Some e
        end in
      exit_all lib rest in_flight (h ++ [EvExit r])
  end.

(** [await self.exit_stack.aclose()]: the exits start with no exception in
    flight and leave the stack empty; an exception still in flight after the
    last exit is raised. *)
Definition aclose (lib : Library) : M state unit :=
  λ st,
  let '(in_flight, h) :=
    exit_all lib (exit_stack (self st)) None (history st) in
  (match in_flight with
   | None => Return tt
   | Some e => Raise e
   end,
   {| self := with_exit_stack [] (self st); history := h |}).

(** [MCPClient.cleanup]: when [aclose] raises, the three assignments are
    not reached. *)
Definition cleanup (lib : Library) : M state unit :=
  aclose lib;;
  assign (with_session None);;
  assign (with_stdio_read None);;
  assign (with_stdio_write None).

(** [MCPClient.connect_and_list_tools] *)
Definition connect_and_list_tools (lib : Library) (server_script_path : string)
  : M state (list Tool) :=
  self ← gets self;
  match session self with
  | Some sess =>
      try_except
        (tools ← request (EvListTools sess) (λ h, list_tools lib h sess);
         mret tools)
        (λ e, raise e)
  | None =>
      let is_python := endswith server_script_path ".py" in
      let is_js := endswith server_script_path ".js" in
      if negb (is_python || is_js)
      then raise (ValueError "❌ 服务器脚本必须是 .py 或 .js 文件")
      else
        let command := if is_python then "python" else "node" in
        let args := [server_script_path] in
        let server_params :=
          {| command := command; args := args; env := None |} in
        try_except
          (stdio_transport ← enter_stdio_client lib server_params;
           assign (with_stdio_read (Some stdio_transport.1));;
           assign (with_stdio_write (Some stdio_transport.2));;
           sess ← enter_client_session lib
                    {| read_stream := stdio_transport.1;
                       write_stream := stdio_transport.2 |};
           assign (with_session (Some sess));;
           request (EvInitialize sess) (λ h, initialize lib h sess);;
           tools ← request (EvListTools sess) (λ h, list_tools lib h sess);
           mret tools)
          (λ e, if is_FileNotFoundError e
                then cleanup lib;; raise e
                else cleanup lib;; raise e)
  end.

End Client.

Arguments Client.cleanup : simpl never.

(** ** [rag_ML]: the retrieval tool *)

Module RagServer.

Section Server.

(** What graphrag and pandas hand back: the configuration object, a data
    frame, and the two halves of a search result. *)
Context {Config DataFrame Response SearchContext : Type}.

(** The keyword arguments of [api.global_search]. *)
Record search_args : Type := {
  config : Config;
  entities : DataFrame;
  communities : DataFrame;
  community_reports : DataFrame;
  community_level : Z;
  dynamic_community_selection : bool;
  response_type : string;
  query : string
}.

Inductive event : Type :=
  | EvLoadConfig (root : string)
  | EvReadParquet (path : string)
  | EvGlobalSearch (a : search_args).

(** graphrag, pandas and the files under the project directory.  Each
    answer may depend on the earlier requests; each may be an exception. *)
Record Library : Type := {
  load_config : list event → string → exc Config;
  read_parquet : list event → string → exc DataFrame;
  global_search : list event → search_args → exc (Response * SearchContext)
}.

Definition request {A} (ev : event) (answer : list event → exc A)
  : M (list event) A :=
  λ h, (answer h, h ++ [ev]).

Definition PROJECT_DIRECTORY : string :=
  "/root/autodl-tmp/MCP/mcp-graphrag/graphrag".

Definition rag_ML (lib : Library) (query : string) : M (list event) Response :=
  graphrag_config ← request (EvLoadConfig PROJECT_DIRECTORY)
                      (λ h, load_config lib h PROJECT_DIRECTORY);
  let entities_path := PROJECT_DIRECTORY +:+ "/output/entities.parquet" in
  entities ← request (EvReadParquet entities_path)
               (λ h, read_parquet lib h entities_path);
  let communities_path := PROJECT_DIRECTORY +:+ "/output/communities.parquet" in
  communities ← request (EvReadParquet communities_path)
                  (λ h, read_parquet lib h communities_path);
  let reports_path :=
    PROJECT_DIRECTORY +:+ "/output/community_reports.parquet" in
  community_reports ← request (EvReadParquet reports_path)
                        (λ h, read_parquet lib h reports_path);
  let a := {| config := graphrag_config;
              entities := entities;
              communities := communities;
              community_reports := community_reports;
              community_level := 2;
              dynamic_community_selection := false;
              response_type := "Multiple Paragraphs";
              query := query |} in
  '(response, context) ← request (EvGlobalSearch a)
                            (λ h, global_search lib h a);
  mret response.

End Server.

Arguments search_args : clear implicits.
Arguments event : clear implicits.
Arguments Library : clear implicits.

End RagServer.

(** ** Vocabulary of the specification: the translator *)

Module TranslatorSpec.
Import Translator.

(** [v[k]] when [v] is a dict that has the key. *)
Definition field (k : string) (v : value) : option value :=
  match v with
  | VDict d => d !! k
  | _ => None
  end.

(** [item] is a dict whose ["function"] is the dict [f], and [f] has a name
    and a description. *)
Definition descriptor (item : value) (f : gmap string value) : Prop :=
  field "function" item = Some (VDict f)
  ∧ is_Some (f !! "name") ∧ is_Some (f !! "description").

(** The validity the specification words: a function descriptor is enough. *)
Definition described (item : value) : Prop := ∃ f, descriptor item f.

(** The items the loop keeps: a ["type"] key next to the descriptor. *)
Definition accepted (item : value) : Prop :=
  is_Some (field "type" item) ∧ described item.

(** [out] is the target-format form of [item]. *)
Definition converted (item out : value) : Prop :=
  ∃ f new_func,
    descriptor item f
    ∧ out = VDict {[ "type" := VStr "function"; "function" := VDict new_func ]}
    ∧ new_func !! "name" = f !! "name"
    ∧ new_func !! "description" = f !! "description"
    ∧ is_Some (new_func !! "parameters")
    ∧ dom new_func = {[ "name"; "description"; "parameters" ]}.

(** [out["function"]["parameters"]] *)
Definition parameters_of (out : value) : option value :=
  field "function" out ≫= field "parameters".

(** In the output for [pre ++ item :: post], [out] stands between what
    [pre] yields and what [post] yields. *)
Definition kept_at (pre : list value) (item : value) (post : list value)
    (out : value) : Prop :=
  ∃ o_pre o_post,
    transform_json pre = Return o_pre
    ∧ transform_json post = Return o_post
    ∧ transform_json (pre ++ item :: post) = Return (o_pre ++ out :: o_post).

(** In the output for [pre ++ item :: post], nothing stands for [item]. *)
Definition dropped_at (pre : list value) (item : value) (post : list value)
    : Prop :=
  ∃ o_pre o_post,
    transform_json pre = Return o_pre
    ∧ transform_json post = Return o_post
    ∧ transform_json (pre ++ item :: post) = Return (o_pre ++ o_post).

(** The pure reading of one loop turn. *)
Definition convert (item : value) : option value :=
  match transform_item item with
  | Return r => r
  | Raise _ => None
  end.

(** What the loop body leaves under ["parameters"] for the function [f]. *)
Definition expected_parameters (f : gmap string value) : gmap string value :=
  match f !! "input_schema" with
  | Some (VDict old_schema) =>
      let p : gmap string value :=
        <["properties" := default (VDict ∅) (old_schema !! "properties")]>
          (<["type" := default (VStr "object") (old_schema !! "type")]> ∅) in
      match old_schema !! "required" with
      | Some required => <["required" := required]> p
      | None => p
      end
  | _ => ∅
  end.

(** What the loop appends for an accepted item with function [f]. *)
Definition expected_item (f : gmap string value) (name description : value)
  : value :=
  VDict {[ "type" := VStr "function";
           "function" := VDict {[ "name" := name;
                                  "description" := description;
                                  "parameters" := VDict (expected_parameters f) ]} ]}.

(** *** Sample inputs *)

(** The search tool of the specification's first example. *)
Definition search_schema : gmap string value :=
  {[ "type" := VStr "object";
     "properties" := VDict {[ "q" := VDict {[ "type" := VStr "string" ]} ]};
     "required" := VList [VStr "q"] ]}.

Definition search_func : gmap string value :=
  {[ "name" := VStr "search";
     "description" := VStr "find docs";
     "input_schema" := VDict search_schema ]}.

Definition search_tool : value :=
  VDict {[ "type" := VStr "function"; "function" := VDict search_func ]}.

(** A full descriptor in an envelope that has no ["type"] key. *)
Definition untyped_tool : value :=
  VDict {[ "function" := VDict search_func ]}.

(** An envelope whose ["type"] is not ["function"], and whose function has
    no schema. *)
Definition plain_func : gmap string value :=
  {[ "name" := VStr "ping"; "description" := VStr "liveness probe" ]}.

Definition custom_tool : value :=
  VDict {[ "type" := VStr "custom"; "function" := VDict plain_func ]}.

End TranslatorSpec.

(** ** Vocabulary of the specification: the connection manager *)

Module ClientSpec.
Import Client.

(** The Disconnected state: no session and no streams. *)
Definition disconnected (c : MCPClient) : Prop :=
  session c = None ∧ stdio_read c = None ∧ stdio_write c = None.

(** [c] with its connection state unset and nothing left to exit. *)
Definition cleared (c : MCPClient) : MCPClient :=
  with_stdio_write None
    (with_stdio_read None (with_session None (with_exit_stack [] c))).

(** [path] names a script of a supported type. *)
Definition supported (path : string) : Prop :=
  ∃ stem, path = stem +:+ ".py" ∨ path = stem +:+ ".js".

(** The launch parameters for a supported script: one fixed command per
    script type, and the path as the only argument. *)
Definition server_params_for (path : string) : StdioServerParameters :=
  {| command := if endswith path ".py" then "python" else "node";
     args := [path];
     env := None |}.


(** Every exit of [stack], run after the history [h] with no exception in
    flight, completes without raising. *)
Fixpoint exits_complete (lib : Library) (h : list event)
    (stack : list resource) : Prop :=
  match stack with
  | [] => True
  | r :: rest =>
      (∃ suppress, exit_context lib h r None = Return suppress)
      ∧ exits_complete lib (h ++ [EvExit r]) rest
  end.

(** *** Sample clients and servers *)

(** A constructor that takes any key and base URL. *)
Definition lenient_OpenAI (key : string) (url : option string) : exc OpenAI :=
  Return {| api_key := key; api_base_url := url |}.

(** A constructor that wants an [http] or [https] base URL. *)
Definition strict_OpenAI (key : string) (url : option string) : exc OpenAI :=
  match url with
  | Some u =>
      if String.prefix "http" u
      then Return {| api_key := key; api_base_url := url |}
      else Raise (LibraryError "InvalidURL" u)
  | None => Return {| api_key := key; api_base_url := None |}
  end.

Definition sample_environ : gmap string string :=
  {[ "OPENAI_API_KEY" := "sk-test"; "MODEL" := "gpt-4o" ]}.

(** The instance [__init__] builds from [sample_environ]. *)
Definition fresh_client : MCPClient :=
  {| exit_stack := []; openai_api_key := "sk-test";
     base_url := None; model := Some "gpt-4o";
     client := {| api_key := "sk-test"; api_base_url := None |};
     session := None; stdio_read := None; stdio_write := None |}.

Definition fresh : state := {| self := fresh_client; history := [] |}.

Definition rag_tool : Tool :=
  {| name := "rag_ML"; description := "decision tree questions";
     inputSchema := VDict {[ "type" := VStr "object" ]} |}.

Definition echo_tool : Tool :=
  {| name := "echo"; description := "repeat the input";
     inputSchema := VDict ∅ |}.

Definition is_listing (ev : event) : bool :=
  match ev with
  | EvListTools _ => true
  | _ => false
  end.

(** A server that starts and shakes hands; it offers one tool the first
    time it is asked and two from then on. *)
Definition good_server : Library :=
  {| stdio_client := λ _ _, Return (3%N, 4%N);
     session_enter := λ _ _, Return tt;
     initialize := λ _ _, Return tt;
     list_tools := λ h _,
       if existsb is_listing h then Return [rag_tool; echo_tool]
       else Return [rag_tool];
     exit_context := λ _ _ _, Return false |}.

(** A server that starts and then rejects the handshake. *)
Definition deaf_server : Library :=
  {| stdio_client := λ _ _, Return (3%N, 4%N);
     session_enter := λ _ _, Return tt;
     initialize := λ _ _, Raise (LibraryError "McpError" "Connection closed");
     list_tools := λ _ _, Return [];
     exit_context := λ _ _ _, Return false |}.

(** The session over the two streams these servers hand out. *)
Definition sample_session : ClientSession :=
  {| read_stream := 3%N; write_stream := 4%N |}.

(** The state a successful connection to [good_server] leaves. *)
Definition connected : state :=
  (connect_and_list_tools good_server "rag_server.py" fresh).2.

(** Exiting the transport fails when its process cannot be stopped. *)
Definition stuck_exit (r : resource) : exc bool :=
  match r with
  | Transport _ _ _ => Raise (LibraryError "ProcessLookupError" "no such process")
  | Session _ => Return false
  end.


(** A server that rejects the handshake, on a transport that cannot be
    closed. *)
Definition deaf_stuck_server : Library :=
  {| stdio_client := λ _ _, Return (3%N, 4%N);
     session_enter := λ _ _, Return tt;
     initialize := λ _ _, Raise (LibraryError "McpError" "Connection closed");
     list_tools := λ _ _, Return [];
     exit_context := λ _ r _, stuck_exit r |}.


End ClientSpec.

(** ** Vocabulary of the specification: the retrieval tool *)

Module RagServerSpec.
Import RagServer.

Section Loading.
Context {Config DataFrame Response SearchContext : Type}.

Definition entities_path : string :=
  "/root/autodl-tmp/MCP/mcp-graphrag/graphrag/output/entities.parquet".
Definition communities_path : string :=
  "/root/autodl-tmp/MCP/mcp-graphrag/graphrag/output/communities.parquet".
Definition community_reports_path : string :=
  "/root/autodl-tmp/MCP/mcp-graphrag/graphrag/output/community_reports.parquet".

(** The four loads of one invocation, in order. *)
Definition loads : list (event Config DataFrame) :=
  [EvLoadConfig "/root/autodl-tmp/MCP/mcp-graphrag/graphrag";
   EvReadParquet entities_path;
   EvReadParquet communities_path;
   EvReadParquet community_reports_path].

(** After the history [h], the configuration and the three artifacts
    load, in that order, as [cfg], [e], [c] and [r]. *)
Definition loaded (lib : Library Config DataFrame Response SearchContext)
    (h : list (event Config DataFrame))
    (cfg : Config) (e c r : DataFrame) : Prop :=
  load_config lib h "/root/autodl-tmp/MCP/mcp-graphrag/graphrag" = Return cfg
  ∧ read_parquet lib (h ++ take 1 loads) entities_path = Return e
  ∧ read_parquet lib (h ++ take 2 loads) communities_path = Return c
  ∧ read_parquet lib (h ++ take 3 loads) community_reports_path = Return r.

(** The search call fixes every parameter but the query and the data. *)
Definition fixed_parameters (a : search_args Config DataFrame) : Prop :=
  community_level a = 2%Z
  ∧ dynamic_community_selection a = false
  ∧ response_type a = "Multiple Paragraphs".

End Loading.

(** *** A sample index *)

(** An index whose files load, and a search that answers with the query's
    length and keeps the number of reports as its context. *)
Definition sample_index : Library string (list string) string nat :=
  {| load_config := λ _ root, Return (root +:+ "/settings.yaml");
     read_parquet := λ _ path, Return [path];
     global_search := λ _ a,
       Return ("answer to: " +:+ query a, length (community_reports a)) |}.

End RagServerSpec.

(** ** [run_example]: the demonstration flow *)

Module Example.
Import Client.

(** [try: body  finally: finalizer]: the finalizer runs on both outcomes;
    an exception of its own replaces the outcome of the body. *)
Definition try_finally {S A} (body : M S A) (finalizer : M S unit) : M S A :=
  λ s,
  match body s with
  | (r, s') =>
      match finalizer s' with
      | (Return _, s'') => (r, s'')
      | (Raise e, s'') => (Raise e, s'')
      end
  end.

(** [run_example] from the [try] on, with [client] as the state.  The
    [os.path.exists] test before it only selects a warning to print, and is
    left out with the prints. *)
Definition example_flow (lib : Library) : M state unit :=
  let server_script := "rag_server.py" in
  try_finally
    (try_except
       (available_tools ← connect_and_list_tools lib server_script;
        mret tt)
       (λ e, mret tt))
    (cleanup lib).

(** [run_example], given the [openai] constructor, the process environment
    and the requests made so far: [MCPClient()] is built outside the [try].
    The client is local to the function; what is left to see is the outcome
    and the requests. *)
Definition run_example (new_OpenAI : string → option string → exc OpenAI)
    (lib : Library) (environ : gmap string string)
    (h : list event) : exc unit * list event :=
  match init new_OpenAI environ with
  | Raise e => (Raise e, h)
  | Return client =>
      let '(r, st) := example_flow lib {| self := client; history := h |} in
      (r, history st)
  end.

End Example.

(** ** The states of the connection manager *)

Module ClientStates.
Import Client ClientSpec.

(** Disconnected, with nothing left to exit. *)
Definition idle (c : MCPClient) : Prop :=
  disconnected c ∧ exit_stack c = [].

(** Connected over the transport [read]/[write] launched with
    [server_params]: the session and both streams are set, and the exit
    stack holds the session on top of the transport. *)
Definition connected_over (server_params : StdioServerParameters)
    (read write : Stream) (c : MCPClient) : Prop :=
  let sess := {| read_stream := read; write_stream := write |} in
  session c = Some sess
  ∧ stdio_read c = Some read
  ∧ stdio_write c = Some write
  ∧ exit_stack c = [Session sess; Transport server_params read write].

(** What every state of the client satisfies: the exit stack is empty or
    holds the session over its transport, and a session that is set is the
    session over the two streams that are set. *)
Definition consistent (c : MCPClient) : Prop :=
  (exit_stack c = []
   ∨ ∃ server_params read write, connected_over server_params read write c)
  ∧ ∀ sess, session c = Some sess →
            stdio_read c = Some (read_stream sess)
            ∧ stdio_write c = Some (write_stream sess).

(** The attributes [__init__] takes from the environment. *)
Definition same_settings (c c' : MCPClient) : Prop :=
  openai_api_key c = openai_api_key c'
  ∧ base_url c = base_url c'
  ∧ model c = model c'
  ∧ client c = client c'.

(** A machine on which the launch command is not installed. *)
Definition no_interpreter : Library :=
  {| stdio_client := λ _ server_params,
       Raise (FileNotFoundError (command server_params));
     session_enter := λ _ _, Return tt;
     initialize := λ _ _, Return tt;
     list_tools := λ _ _, Return [];
     exit_context := λ _ _ _, Return false |}.

End ClientStates.

(** ** Failing loads of the retrieval tool *)

Module RagFailures.
Import RagServer RagServerSpec.

Section Failing.
Context {Config DataFrame Response SearchContext : Type}.

(** After the history [h], one of the four loads fails with [e]; the index
    is the list of the requests made up to the failure. *)
Inductive load_failure (lib : Library Config DataFrame Response SearchContext)
    (h : list (event Config DataFrame)) (e : exn)
    : list (event Config DataFrame) → Prop :=
  | config_fails :
      load_config lib h "/root/autodl-tmp/MCP/mcp-graphrag/graphrag" = Raise e →
      load_failure lib h e (take 1 loads)
  | entities_fail cfg :
      load_config lib h "/root/autodl-tmp/MCP/mcp-graphrag/graphrag"
        = Return cfg →
      read_parquet lib (h ++ take 1 loads) entities_path = Raise e →
      load_failure lib h e (take 2 loads)
  | communities_fail cfg en :
      load_config lib h "/root/autodl-tmp/MCP/mcp-graphrag/graphrag"
        = Return cfg →
      read_parquet lib (h ++ take 1 loads) entities_path = Return en →
      read_parquet lib (h ++ take 2 loads) communities_path = Raise e →
      load_failure lib h e (take 3 loads)
  | reports_fail cfg en co :
      load_config lib h "/root/autodl-tmp/MCP/mcp-graphrag/graphrag"
        = Return cfg →
      read_parquet lib (h ++ take 1 loads) entities_path = Return en →
      read_parquet lib (h ++ take 2 loads) communities_path = Return co →
      read_parquet lib (h ++ take 3 loads) community_reports_path = Raise e →
      load_failure lib h e loads.

(** The keyword arguments of the one search call: the loaded data, the
    query, and the three constants. *)
Definition search_call (cfg : Config) (e c r : DataFrame) (query : string)
  : search_args Config DataFrame :=
  {| config := cfg; entities := e; communities := c; community_reports := r;
     community_level := 2; dynamic_community_selection := false;
     response_type := "Multiple Paragraphs"; query := query |}.

Definition is_search (ev : event Config DataFrame) : bool :=
  match ev with
  | EvGlobalSearch _ => true
  | _ => false
  end.

End Failing.

(** An index whose communities file is missing. *)
Definition broken_index : Library string (list string) string nat :=
  {| load_config := λ _ root, Return (root +:+ "/settings.yaml");
     read_parquet := λ _ path,
       if String.eqb path communities_path
       then Raise (FileNotFoundError path)
       else Return [path];
     global_search := λ _ a, Return ("unreachable", 0) |}.

(** An index that is rebuilt between queries: each file read after a
    search has happened comes back with a second row. *)
Definition rebuilt_index : Library string (list string) string nat :=
  {| load_config := λ _ root, Return (root +:+ "/settings.yaml");
     read_parquet := λ h path,
       if existsb is_search h then Return [path; "row added by reindexing"]
       else Return [path];
     global_search := λ _ a,
       Return ("answer to: " +:+ query a, length (community_reports a)) |}.

End RagFailures.

(** Unfolds a run of the client down to the library's answers and to the
    calls of [cleanup]. *)
Ltac run_M :=
  unfold Client.connect_and_list_tools,
    Client.enter_stdio_client, Client.enter_client_session, Client.request,
    Client.assign, try_except, raise, gets, modify,
    mbind, M_bind, mret, M_ret.

(** Unfolds a call of [cleanup] on a state whose exit stack is known. *)
Ltac run_cleanup :=
  unfold Client.cleanup, Client.aclose; run_M; cbn;
  rewrite <- ?app_assoc; cbn.

(** Case analysis on the answers of the library along one attempt. *)
Ltac library_answers :=
  repeat match goal with
         | |- context [Client.stdio_client ?l ?h ?p] =>
             destruct (Client.stdio_client l h p) as [[? ?]|?] eqn:?;
             cbn; rewrite <- ?app_assoc; cbn
         | |- context [Client.session_enter ?l ?h ?s] =>
             destruct (Client.session_enter l h s) as [[]|?] eqn:?;
             cbn; rewrite <- ?app_assoc; cbn
         | |- context [Client.initialize ?l ?h ?s] =>
             destruct (Client.initialize l h s) as [[]|?] eqn:?;
             cbn; rewrite <- ?app_assoc; cbn
         | |- context [Client.list_tools ?l ?h ?s] =>
             destruct (Client.list_tools l h s) as [?|?] eqn:?;
             cbn; rewrite <- ?app_assoc; cbn
         end.

(** Case analysis on the answers of the exits. *)
Ltac exit_answers :=
  repeat match goal with
         | |- context [Client.exit_context ?l ?h ?r ?p] =>
             destruct (Client.exit_context l h r p) as [[|]|?] eqn:?;
             cbn; rewrite <- ?app_assoc; cbn
         end.

(** * Properties *)

(** ** Exceptions and the monad *)

Lemma exc_bind_Return {A B} (a : A) (f : A → exc B) :
  (Return a ≫= f) = f a.
Proof. reflexivity. Qed.

Lemma contains_true k d : contains k d = true ↔ is_Some (d !! k).
Proof.
  unfold contains. destruct (d !! k) as [v|]; split; intros H.
  - by exists v.
  - reflexivity.
  - discriminate.
  - by destruct H.
Qed.

Lemma contains_false k d : contains k d = false ↔ d !! k = None.
Proof.
  unfold contains. destruct (d !! k); split; intros H; congruence.
Qed.

(** A guarded subscript does not raise. *)
Lemma getitem_Some d k v : d !! k = Some v → getitem d k = Return v.
Proof. intros H. unfold getitem. by rewrite H. Qed.

Lemma setitem2_dict d k1 k2 p v :
  d !! k1 = Some (VDict p) →
  setitem2 d k1 k2 v = Return (<[k1 := VDict (<[k2 := v]> p)]> d).
Proof.
  intros H. unfold setitem2. rewrite (getitem_Some _ _ _ H). reflexivity.
Qed.

(** ** The schema translator *)

Section TranslatorFacts.
Import Translator TranslatorSpec.

(** The [parameters] block, when the function carries a dict schema. *)
Lemma fill_parameters_schema f new_func p old_schema :
  f !! "input_schema" = Some (VDict old_schema) →
  new_func !! "parameters" = Some (VDict p) →
  ∃ p', fill_parameters f new_func = Return (<["parameters" := VDict p']> new_func)
        ∧ p' = let q := <["properties" := default (VDict ∅) (old_schema !! "properties")]>
                          (<["type" := default (VStr "object") (old_schema !! "type")]> p) in
               match old_schema !! "required" with
               | Some required => <["required" := required]> q
               | None => q
               end.
Proof.
  intros Hs Hp. unfold fill_parameters.
  assert (contains "input_schema" f = true) as ->
    by (apply contains_true; rewrite Hs; eauto).
  rewrite (getitem_Some _ _ _ Hs). cbn [mbind exc_bind].
  rewrite (setitem2_dict _ _ _ _ _ Hp). cbn [mbind exc_bind].
  rewrite (setitem2_dict _ "parameters" "properties"
             (<["type" := get old_schema "type" (VStr "object")]> p))
    by apply lookup_insert_eq.
  cbn [mbind exc_bind]. rewrite insert_insert_eq. unfold get.
  destruct (old_schema !! "required") as [required|] eqn:Hr.
  - assert (contains "required" old_schema = true) as ->
      by (apply contains_true; rewrite Hr; eauto).
    rewrite (getitem_Some _ _ _ Hr). cbn [mbind exc_bind].
    erewrite setitem2_dict by apply lookup_insert_eq.
    rewrite insert_insert_eq. eauto.
  - assert (contains "required" old_schema = false) as ->
      by (by apply contains_false).
    eauto.
Qed.

(** The [parameters] block is skipped without a dict schema. *)
Lemma fill_parameters_skip f new_func :
  (∀ old_schema, f !! "input_schema" ≠ Some (VDict old_schema)) →
  fill_parameters f new_func = Return new_func.
Proof.
  intros Hs. unfold fill_parameters, contains, getitem.
  destruct (f !! "input_schema") as [v|]; [|reflexivity].
  cbn [mbind exc_bind]. destruct v; try reflexivity.
  by destruct (Hs d).
Qed.

Lemma fill_parameters_expected f name description :
  fill_parameters f {[ "name" := name; "description" := description;
                       "parameters" := VDict ∅ ]}
  = Return {[ "name" := name; "description" := description;
              "parameters" := VDict (expected_parameters f) ]}.
Proof.
  unfold expected_parameters.
  destruct (f !! "input_schema") as [v|] eqn:Hs.
  - destruct v as [| | | | | |old_schema];
      try (apply fill_parameters_skip; intros ?; rewrite Hs; congruence).
    destruct (fill_parameters_schema f
                {[ "name" := name; "description" := description;
                   "parameters" := VDict ∅ ]} ∅ old_schema Hs)
      as (p' & -> & ->); [reflexivity|].
    destruct (old_schema !! "required"); reflexivity.
  - apply fill_parameters_skip. intros ?. rewrite Hs. congruence.
Qed.

(** A loop turn on an accepted item. *)
Lemma transform_item_accepted d type_value f name description :
  d !! "type" = Some type_value →
  d !! "function" = Some (VDict f) →
  f !! "name" = Some name →
  f !! "description" = Some description →
  transform_item (VDict d) = Return (Some (expected_item f name description)).
Proof.
  intros Ht Hf Hn Hd. unfold transform_item, contains.
  rewrite Ht, Hf. cbn [negb orb].
  rewrite (getitem_Some _ _ _ Hf). cbn [mbind exc_bind].
  rewrite Hn, Hd. cbn [negb orb].
  rewrite (getitem_Some _ _ _ Hn), (getitem_Some _ _ _ Hd).
  cbn [mbind exc_bind]. rewrite fill_parameters_expected. reflexivity.
Qed.

Lemma accepted_inv item :
  accepted item ↔
  ∃ d type_value f name description,
    item = VDict d ∧ d !! "type" = Some type_value
    ∧ d !! "function" = Some (VDict f)
    ∧ f !! "name" = Some name ∧ f !! "description" = Some description.
Proof.
  split.
  - intros [[tv Ht] (f & Hf & [n Hn] & [de Hd])].
    destruct item; try discriminate. cbn in Ht, Hf. naive_solver.
  - intros (d & tv & f & n & de & -> & Ht & Hf & Hn & Hd).
    split; [by exists tv|]. exists f. repeat split; eauto.
Qed.

(** A loop turn on any other item is [continue]. *)
Lemma transform_item_rejected item :
  ¬ accepted item → transform_item item = Return None.
Proof.
  intros Hno. destruct item as [| | | | | |d]; try reflexivity.
  unfold transform_item, contains, getitem.
  destruct (d !! "type") as [tv|] eqn:Ht; [|reflexivity].
  destruct (d !! "function") as [fv|] eqn:Hf; [|reflexivity].
  cbn [negb orb mbind exc_bind].
  destruct fv as [| | | | | |f]; try reflexivity.
  destruct (f !! "name") as [n|] eqn:Hn; [|reflexivity].
  destruct (f !! "description") as [de|] eqn:Hd; [|reflexivity].
  destruct Hno. apply accepted_inv. naive_solver.
Qed.

Lemma accepted_dec item : accepted item ∨ ¬ accepted item.
Proof.
  destruct item as [| | | | | |d];
    try (right; intros [[? Ht] _]; discriminate).
  destruct (d !! "type") as [tv|] eqn:Ht;
    [|right; intros [[? Ht'] _]; cbn in Ht'; congruence].
  destruct (d !! "function") as [fv|] eqn:Hf;
    [|right; intros [_ (f & Hf' & _)]; cbn in Hf'; congruence].
  destruct fv as [| | | | | |f];
    try (right; intros [_ (f' & Hf' & _)]; cbn in Hf'; congruence).
  destruct (f !! "name") as [n|] eqn:Hn;
    [|right; intros [_ (f' & Hf' & [? Hn'] & _)]; cbn in Hf';
      rewrite Hf in Hf'; simplify_eq].
  destruct (f !! "description") as [de|] eqn:Hd;
    [|right; intros [_ (f' & Hf' & _ & [? Hd'])]; cbn in Hf';
      rewrite Hf in Hf'; simplify_eq].
  left. apply accepted_inv. naive_solver.
Qed.

(** No loop turn raises. *)
Lemma transform_item_convert item :
  transform_item item = Return (convert item).
Proof.
  unfold convert. destruct (accepted_dec item) as [Ha|Hno].
  - apply accepted_inv in Ha as (d & tv & f & n & de & -> & Ht & Hf & Hn & Hd).
    by rewrite (transform_item_accepted d tv f n de).
  - by rewrite transform_item_rejected.
Qed.

(** The loop appends to [result] what each turn keeps, in order. *)
Lemma transform_loop_omap json2_data result :
  transform_loop json2_data result = Return (result ++ omap convert json2_data).
Proof.
  revert result. induction json2_data as [|item rest IH]; intros result.
  - cbn. by rewrite app_nil_r.
  - cbn [transform_loop]. rewrite transform_item_convert.
    cbn [mbind exc_bind omap list_omap].
    destruct (convert item) as [new_item|].
    + rewrite IH, <- app_assoc. reflexivity.
    + apply IH.
Qed.

Lemma transform_json_omap json2_data :
  transform_json json2_data = Return (omap convert json2_data).
Proof. apply transform_loop_omap. Qed.

Lemma kept_at_convert pre item post out :
  convert item = Some out → kept_at pre item post out.
Proof.
  intros Hc. exists (omap convert pre), (omap convert post).
  rewrite !transform_json_omap, omap_app. cbn. by rewrite Hc.
Qed.

Lemma dropped_at_convert pre item post :
  convert item = None → dropped_at pre item post.
Proof.
  intros Hc. exists (omap convert pre), (omap convert post).
  rewrite !transform_json_omap, omap_app. cbn. by rewrite Hc.
Qed.

End TranslatorFacts.

Section TranslatorClaims.
Import Translator TranslatorSpec.

Lemma expected_item_converted item f name description :
  descriptor item f →
  f !! "name" = Some name → f !! "description" = Some description →
  converted item (expected_item f name description).
Proof.
  intros Hdesc Hn Hd.
  exists f, {[ "name" := name; "description" := description;
               "parameters" := VDict (expected_parameters f) ]}.
  split; [done|]. split; [reflexivity|].
  split; [by rewrite Hn|]. split; [by rewrite Hd|].
  split; [by eexists|].
  rewrite !dom_insert_L, dom_singleton_L. set_solver.
Qed.

Lemma convert_accepted item f :
  accepted item → descriptor item f →
  ∃ name description,
    f !! "name" = Some name ∧ f !! "description" = Some description
    ∧ convert item = Some (expected_item f name description).
Proof.
  intros Ha (Hf & _).
  apply accepted_inv in Ha as (d & tv & f' & n & de & -> & Ht & Hf' & Hn & Hd).
  cbn in Hf. rewrite Hf' in Hf. injection Hf as ->.
  exists n, de. repeat split; try done.
  unfold convert. by rewrite (transform_item_accepted d tv f n de).
Qed.

Lemma convert_rejected item : ¬ accepted item → convert item = None.
Proof.
  intros Hno. unfold convert. by rewrite transform_item_rejected.
Qed.

(** C1, as amended: the item at any position of the input has a converted
    form at the matching position of the output when it is a dict with both
    a ["type"] key and a ["function"] key whose value is a dict with
    ["name"] and ["description"]; any other item leaves nothing in the
    output; in both cases the call returns normally. *)
Theorem transform_json_keeps_exactly_accepted
    (pre : list value) (item : value) (post : list value) :
  (accepted item → ∃ out, converted item out ∧ kept_at pre item post out)
  ∧ (¬ accepted item → dropped_at pre item post).
Proof.
  split.
  - intros Ha. destruct (Ha) as [_ [f Hdesc]].
    destruct (convert_accepted item f Ha Hdesc) as (n & de & Hn & Hd & Hc).
    exists (expected_item f n de). split.
    + by apply expected_item_converted.
    + by apply kept_at_convert.
  - intros Hno. apply dropped_at_convert. by apply convert_rejected.
Qed.

(** C1, as stated, fails: a dict with a complete function descriptor and no
    ["type"] key meets the stated condition and is left out. *)
Lemma described_item_without_type_is_dropped :
  described untyped_tool
  ∧ transform_json [untyped_tool] = Return [].
Proof.
  split.
  - exists search_func. repeat split; by eexists.
  - reflexivity.
Qed.

(** The amended condition on the two sample envelopes. *)
Lemma transform_json_keeps_exactly_accepted_sample :
  (∃ out, converted search_tool out ∧ kept_at [] search_tool [untyped_tool] out)
  ∧ dropped_at [search_tool] untyped_tool [].
Proof.
  split.
  - apply (transform_json_keeps_exactly_accepted [] search_tool [untyped_tool]).
    split; [by eexists|]. exists search_func. repeat split; by eexists.
  - apply (transform_json_keeps_exactly_accepted [search_tool] untyped_tool []).
    intros [[tv Ht] _]. discriminate Ht.
Defined.

(** C2: for an accepted item whose function has a dict under
    ["input_schema"], the output item's parameters have the schema's type
    (["object"] when absent) and properties (the empty mapping when absent),
    and have a ["required"] entry exactly when the schema has one, with the
    schema's value. *)
Theorem transform_json_parameters_from_schema
    (pre : list value) (item : value) (post : list value)
    (f old_schema : gmap string value) :
  accepted item →
  descriptor item f →
  f !! "input_schema" = Some (VDict old_schema) →
  ∃ out parameters,
    kept_at pre item post out
    ∧ parameters_of out = Some (VDict parameters)
    ∧ parameters !! "type" = Some (default (VStr "object") (old_schema !! "type"))
    ∧ parameters !! "properties"
      = Some (default (VDict ∅) (old_schema !! "properties"))
    ∧ (is_Some (parameters !! "required") ↔ is_Some (old_schema !! "required"))
    ∧ parameters !! "required" = old_schema !! "required".
Proof.
  intros Ha Hdesc Hs.
  destruct (convert_accepted item f Ha Hdesc) as (n & de & Hn & Hd & Hc).
  exists (expected_item f n de), (expected_parameters f).
  split; [by apply kept_at_convert|]. split; [reflexivity|].
  unfold expected_parameters. rewrite Hs.
  destruct (old_schema !! "required") as [required|] eqn:Hr.
  - repeat split; try done; by eexists.
  - repeat split; try done; intros [? ?]; discriminate.
Qed.

Lemma transform_json_parameters_from_schema_witness :
  ∃ out parameters,
    kept_at [] search_tool [] out
    ∧ parameters_of out = Some (VDict parameters)
    ∧ parameters !! "type" = Some (default (VStr "object") (search_schema !! "type"))
    ∧ parameters !! "properties"
      = Some (default (VDict ∅) (search_schema !! "properties"))
    ∧ (is_Some (parameters !! "required") ↔ is_Some (search_schema !! "required"))
    ∧ parameters !! "required" = search_schema !! "required".
Proof.
  apply (transform_json_parameters_from_schema [] search_tool [] search_func).
  - split; [by eexists|]. exists search_func. repeat split; by eexists.
  - repeat split; by eexists.
  - reflexivity.
Defined.

(** C9: for an accepted item whose function has no ["input_schema"], or has
    one that is not a dict, the output item's parameters are the empty
    mapping. *)
Theorem transform_json_parameters_without_schema
    (pre : list value) (item : value) (post : list value)
    (f : gmap string value) :
  accepted item →
  descriptor item f →
  (f !! "input_schema" = None
   ∨ ∃ v, f !! "input_schema" = Some v ∧ ∀ old_schema, v ≠ VDict old_schema) →
  ∃ out, kept_at pre item post out ∧ parameters_of out = Some (VDict ∅).
Proof.
  intros Ha Hdesc Hs.
  destruct (convert_accepted item f Ha Hdesc) as (n & de & Hn & Hd & Hc).
  exists (expected_item f n de). split; [by apply kept_at_convert|].
  cbn. do 2 f_equal. unfold expected_parameters.
  destruct Hs as [->|(v & -> & Hv)]; [reflexivity|].
  destruct v; try reflexivity. by destruct (Hv d).
Qed.

Lemma transform_json_parameters_without_schema_witness :
  ∃ out, kept_at [search_tool] custom_tool [] out
         ∧ parameters_of out = Some (VDict ∅).
Proof.
  apply (transform_json_parameters_without_schema
           [search_tool] custom_tool [] plain_func).
  - split; [by eexists|]. exists plain_func. repeat split; by eexists.
  - repeat split; by eexists.
  - left. reflexivity.
Defined.

(** C10: only the presence of the ["type"] key is tested.  Whatever value
    it holds, an item with a valid function descriptor is converted and
    kept, and the ["type"] of the output item is the string ["function"]. *)
Theorem transform_json_ignores_type_value
    (pre : list value) (d : gmap string value) (post : list value)
    (type_value : value) (f : gmap string value) :
  d !! "type" = Some type_value →
  descriptor (VDict d) f →
  ∃ out,
    kept_at pre (VDict d) post out
    ∧ converted (VDict d) out
    ∧ field "type" out = Some (VStr "function").
Proof.
  intros Ht Hdesc.
  assert (accepted (VDict d)) as Ha by (split; [by exists type_value|by exists f]).
  destruct (convert_accepted _ f Ha Hdesc) as (n & de & Hn & Hd & Hc).
  exists (expected_item f n de). split; [by apply kept_at_convert|].
  split; [by apply expected_item_converted|reflexivity].
Qed.

Lemma transform_json_ignores_type_value_witness :
  ∃ out,
    kept_at [] custom_tool [] out
    ∧ converted custom_tool out
    ∧ field "type" out = Some (VStr "function").
Proof.
  apply (transform_json_ignores_type_value
           [] {[ "type" := VStr "custom"; "function" := VDict plain_func ]} []
           (VStr "custom") plain_func).
  - reflexivity.
  - repeat split; by eexists.
Defined.

(** C8: on every input list the call returns a list; the list is no longer
    than the input, and it holds, in input order, the converted forms of
    the items of a sublist of the input. *)
Theorem transform_json_never_raises (json2_data : list value) :
  ∃ result,
    transform_json json2_data = Return result
    ∧ length result ≤ length json2_data
    ∧ ∃ kept,
        kept `sublist_of` json2_data
        ∧ Forall2 (λ item out, transform_json [item] = Return [out]) kept result.
Proof.
  exists (omap convert json2_data). split; [apply transform_json_omap|].
  induction json2_data as [|item rest [Hlen (kept & Hsub & Hall)]].
  - split; [done|]. exists []. split; constructor.
  - cbn [omap list_omap]. destruct (convert item) as [out|] eqn:Hc.
    + split; [cbn; lia|]. exists (item :: kept). split.
      * by apply sublist_skip.
      * constructor; [|done]. rewrite transform_json_omap. cbn. by rewrite Hc.
    + split; [cbn; lia|]. exists kept. split; [|done].
      by apply sublist_cons.
Qed.

(** The two examples of the specification. *)
Example transform_json_search_tool :
  transform_json [search_tool]
  = Return [VDict {[ "type" := VStr "function";
                     "function" := VDict
                       {[ "name" := VStr "search";
                          "description" := VStr "find docs";
                          "parameters" := VDict search_schema ]} ]}].
Proof. reflexivity. Qed.

Example transform_json_no_description :
  transform_json
    [VDict {[ "type" := VStr "function";
              "function" := VDict {[ "name" := VStr "x" ]} ]}]
  = Return [].
Proof. reflexivity. Qed.

(** Items that are not dicts, and dicts whose ["function"] is not a dict,
    are passed over without an exception. *)
Example transform_json_mixed_shapes :
  transform_json
    [VNone; VStr "type"; VList [VStr "type"; VStr "function"]; custom_tool;
     VDict {[ "type" := VInt 1; "function" := VStr "name description" ]};
     VFloat S754_nan; search_tool]
  = (out1 ← transform_json [custom_tool];
     out2 ← transform_json [search_tool];
     Return (out1 ++ out2)).
Proof. reflexivity. Qed.

End TranslatorClaims.

(** ** The connection manager *)

Section ClientClaims.
Import Client ClientSpec.

(** [endswith] is the suffix test. *)
Lemma endswith_spec s suffix :
  endswith s suffix = true ↔ ∃ stem, s = stem +:+ suffix.
Proof.
  induction s as [|a s IH]; cbn [endswith].
  - destruct (String.eqb_spec "" suffix) as [<-|Hne]; split; try done.
    + by exists "".
    + intros [stem Hs]. destruct stem; [by destruct Hne|discriminate].
  - destruct (String.eqb_spec (String a s) suffix) as [<-|Hne]; split; try done.
    + by exists "".
    + intros Hs. apply IH in Hs as [stem ->]. by exists (String a stem).
    + intros [stem Hs]. apply IH. destruct stem as [|b stem].
      * by destruct Hne.
      * injection Hs as -> ->. by exists stem.
Qed.

Lemma endswith_false s suffix :
  (∀ stem, s ≠ stem +:+ suffix) → endswith s suffix = false.
Proof.
  intros Hno. destruct (endswith s suffix) eqn:He; [|done].
  apply endswith_spec in He as [stem ->]. by destruct (Hno stem).
Qed.

Lemma supported_endswith path :
  supported path → endswith path ".py" || endswith path ".js" = true.
Proof.
  intros [stem [->| ->]]; apply orb_true_iff; [left|right];
    apply endswith_spec; by exists stem.
Qed.

(** The exits are all recorded, whatever they answer. *)
Lemma exit_all_history lib stack in_flight h :
  (exit_all lib stack in_flight h).2 = h ++ map EvExit stack.
Proof.
  revert in_flight h. induction stack as [|r stack IH]; intros in_flight h; cbn.
  - by rewrite app_nil_r.
  - by rewrite IH, <- app_assoc.
Qed.

Lemma exit_all_complete lib stack h :
  exits_complete lib h stack → (exit_all lib stack None h).1 = None.
Proof.
  revert h. induction stack as [|r stack IH]; intros h Hex; cbn; [done|].
  destruct Hex as [[suppress ->] Hex]. destruct suppress; by apply IH.
Qed.

(** [cleanup] empties the exit stack and exits what was on it.  When no
    exception is left in flight it unsets the connection state and returns;
    otherwise it raises that exception and the connection state stays. *)
Lemma cleanup_outcome lib st :
  cleanup lib st
  = match (exit_all lib (exit_stack (self st)) None (history st)).1 with
    | None =>
        (Return tt,
         {| self := cleared (self st);
            history := history st ++ map EvExit (exit_stack (self st)) |})
    | Some e =>
        (Raise e,
         {| self := with_exit_stack [] (self st);
            history := history st ++ map EvExit (exit_stack (self st)) |})
    end.
Proof.
  pose proof (exit_all_history lib (exit_stack (self st)) None (history st))
    as Hh.
  unfold cleanup, aclose. run_M.
  destruct (exit_all lib (exit_stack (self st)) None (history st))
    as [[e|] h']; cbn in *; by subst.
Qed.

Lemma cleanup_run lib st :
  exits_complete lib (history st) (exit_stack (self st)) →
  cleanup lib st
  = (Return tt,
     {| self := cleared (self st);
        history := history st ++ map EvExit (exit_stack (self st)) |}).
Proof.
  intros Hex. rewrite cleanup_outcome. by rewrite exit_all_complete.
Qed.

(** With nothing to exit, [cleanup] asks nothing of the library. *)
Lemma cleanup_empty lib st :
  exit_stack (self st) = [] →
  cleanup lib st
  = (Return tt, {| self := cleared (self st); history := history st |}).
Proof.
  intros Hx. rewrite cleanup_run by (by rewrite Hx).
  by rewrite Hx, app_nil_r.
Qed.

(** C4: on a client with no session, a path that ends in neither [.py] nor
    [.js] makes [connect_and_list_tools] raise [ValueError] and leave the
    client and the history as they were: nothing was launched, nothing was
    entered. *)
Theorem connect_rejects_unsupported_suffix
    (lib : Library) (st : state) (path : string) :
  session (self st) = None →
  (∀ stem, path ≠ stem +:+ ".py") →
  (∀ stem, path ≠ stem +:+ ".js") →
  ∃ msg, connect_and_list_tools lib path st = (Raise (ValueError msg), st).
Proof.
  intros Hs Hpy Hjs. eexists. run_M. rewrite Hs.
  rewrite (endswith_false _ _ Hpy), (endswith_false _ _ Hjs). cbn [orb negb].
  reflexivity.
Qed.

Lemma connect_rejects_unsupported_suffix_witness :
  ∃ msg, connect_and_list_tools good_server "server.exe" fresh
         = (Raise (ValueError msg), fresh).
Proof.
  apply (connect_rejects_unsupported_suffix good_server fresh "server.exe").
  - reflexivity.
  - intros stem Hs. apply (f_equal (λ s, endswith s ".py")) in Hs.
    rewrite (proj2 (endswith_spec (stem +:+ ".py") ".py")) in Hs
      by (by exists stem).
    discriminate Hs.
  - intros stem Hs. apply (f_equal (λ s, endswith s ".js")) in Hs.
    rewrite (proj2 (endswith_spec (stem +:+ ".js") ".js")) in Hs
      by (by exists stem).
    discriminate Hs.
Defined.

(** C6: on a client that has a session, [connect_and_list_tools] looks at
    no suffix and launches nothing: it makes one tool-list request on that
    session, and its outcome is the answer to that request, a list or an
    exception; the client is left as it was. *)
Theorem connect_when_connected_lists_tools
    (lib : Library) (st : state) (sess : ClientSession) (path : string) :
  session (self st) = Some sess →
  connect_and_list_tools lib path st
  = (list_tools lib (history st) sess,
     {| self := self st; history := history st ++ [EvListTools sess] |}).
Proof.
  intros Hs. run_M. rewrite Hs.
  destruct (list_tools lib (history st) sess); reflexivity.
Qed.

Lemma connect_when_connected_lists_tools_witness :
  connect_and_list_tools good_server "server.exe" connected
  = (Return [rag_tool; echo_tool],
     {| self := self connected;
        history := history connected ++ [EvListTools sample_session] |}).
Proof.
  apply (connect_when_connected_lists_tools good_server connected
           sample_session "server.exe").
  reflexivity.
Defined.

(** A supported path on a client with no session: the outcome is that of
    the guarded block. *)
Lemma connect_attempt lib st path :
  session (self st) = None →
  supported path →
  connect_and_list_tools lib path st
  = try_except
      (stdio_transport ← enter_stdio_client lib (server_params_for path);
       assign (with_stdio_read (Some stdio_transport.1));;
       assign (with_stdio_write (Some stdio_transport.2));;
       sess ← enter_client_session lib
                {| read_stream := stdio_transport.1;
                   write_stream := stdio_transport.2 |};
       assign (with_session (Some sess));;
       request (EvInitialize sess) (λ h, initialize lib h sess);;
       tools ← request (EvListTools sess) (λ h, list_tools lib h sess);
       mret tools)
      (λ e, cleanup lib;; raise e) st.
Proof.
  intros Hs Hp. unfold connect_and_list_tools at 1.
  unfold mbind at 1, M_bind at 1, gets at 1. rewrite Hs.
  rewrite (supported_endswith _ Hp). cbn [negb].
  unfold try_except. fold (server_params_for path).
  match goal with |- context [match ?b st with _ => _ end] => destruct (b st) as [[tools|e] st'] end;
    [reflexivity|].
  by destruct (is_FileNotFoundError e).
Qed.





(** X7: The other side of the state machine: when every step succeeds the
    client is Connected, holding the session over the two streams. *)
Lemma connect_success lib st path read write tools :
  let server_params := server_params_for path in
  let sess := {| read_stream := read; write_stream := write |} in
  session (self st) = None →
  supported path →
  stdio_client lib (history st) server_params = Return (read, write) →
  session_enter lib (history st ++ [EvSpawn server_params]) sess = Return tt →
  initialize lib (history st ++ [EvSpawn server_params; EvSessionEnter sess])
    sess = Return tt →
  list_tools lib (history st ++ [EvSpawn server_params; EvSessionEnter sess;
                                 EvInitialize sess]) sess = Return tools →
  ∃ st', connect_and_list_tools lib path st = (Return tools, st')
         ∧ session (self st') = Some sess
         ∧ stdio_read (self st') = Some read
         ∧ stdio_write (self st') = Some write
         ∧ exit_stack (self st')
           = Session sess :: Transport server_params read write
               :: exit_stack (self st).
Proof.
  intros server_params sess Hs Hp Hl He Hi Ht. subst server_params sess.
  rewrite (connect_attempt _ _ _ Hs Hp). run_M. rewrite Hl.
  cbn. rewrite He. cbn. rewrite <- ?app_assoc. cbn. rewrite Hi.
  cbn. rewrite <- ?app_assoc. cbn. rewrite Ht. cbn. eauto 6.
Qed.

Lemma init_sample : init lenient_OpenAI sample_environ = Return fresh_client.
Proof. reflexivity. Qed.

(** [__init__] leaves the instance Disconnected, with nothing to exit. *)
Lemma init_disconnected new_OpenAI environ c :
  init new_OpenAI environ = Return c → disconnected c ∧ exit_stack c = [].
Proof.
  unfold init. intros Hi.
  destruct (environ !! "OPENAI_API_KEY") as [[|a key]|]; try discriminate.
  destruct (new_OpenAI _ _); [|discriminate].
  injection Hi as <-. by repeat split.
Qed.

(** With nothing to exit and nothing set, [cleanup] changes nothing. *)
Lemma cleared_id c :
  disconnected c → exit_stack c = [] → cleared c = c.
Proof.
  intros (Hs & Hr & Hw) Hx. destruct c. cbn in *. by subst.
Qed.





End ClientClaims.

(** ** The retrieval tool *)

Section RagServerClaims.
Import RagServer RagServerSpec.
Context {Config DataFrame Response SearchContext : Type}.
Implicit Types (lib : Library Config DataFrame Response SearchContext)
  (h : list (event Config DataFrame)) (a : search_args Config DataFrame).

(** The arguments [rag_ML] passes for [query] and the loaded data. *)
Lemma rag_ML_loaded lib query h cfg e c r :
  loaded lib h cfg e c r →
  let a := {| config := cfg; entities := e; communities := c;
              community_reports := r; community_level := 2;
              dynamic_community_selection := false;
              response_type := "Multiple Paragraphs"; query := query |} in
  rag_ML lib query h
  = (fst <$> global_search lib (h ++ loads) a,
     h ++ loads ++ [EvGlobalSearch a]).
Proof.
  intros (Hcfg & He & Hc & Hr) a. subst a.
  unfold rag_ML, request, mbind, M_bind, mret, M_ret.
  change (PROJECT_DIRECTORY +:+ "/output/entities.parquet") with entities_path.
  change (PROJECT_DIRECTORY +:+ "/output/communities.parquet")
    with communities_path.
  change (PROJECT_DIRECTORY +:+ "/output/community_reports.parquet")
    with community_reports_path.
  change PROJECT_DIRECTORY with "/root/autodl-tmp/MCP/mcp-graphrag/graphrag".
  rewrite Hcfg.
  change (h ++ [EvLoadConfig "/root/autodl-tmp/MCP/mcp-graphrag/graphrag"])
    with (h ++ take 1 (@loads Config DataFrame)).
  rewrite He. rewrite <- app_assoc.
  change (h ++ take 1 loads ++ [EvReadParquet entities_path])
    with (h ++ take 2 (@loads Config DataFrame)).
  rewrite Hc. rewrite <- app_assoc.
  change (h ++ take 2 loads ++ [EvReadParquet communities_path])
    with (h ++ take 3 (@loads Config DataFrame)).
  rewrite Hr. rewrite <- app_assoc.
  change (take 3 loads ++ [EvReadParquet community_reports_path])
    with (@loads Config DataFrame).
  rewrite <- app_assoc.
  destruct (global_search lib (h ++ loads) _) as [[response context]|err];
    reflexivity.
Qed.

(** Whatever the loads answer, a search request of the invocation carries
    the fixed parameters and the invocation's query. *)
Lemma rag_ML_requests lib query h :
  ∃ new,
    (rag_ML lib query h).2 = h ++ new
    ∧ ∀ a, EvGlobalSearch a ∈ new →
           fixed_parameters a ∧ RagServer.query a = query.
Proof.
  unfold rag_ML, request, mbind, M_bind, mret, M_ret.
  repeat match goal with
         | |- context [match ?x with Return _ => _ | Raise _ => _ end] =>
             destruct x as [?|?]
         | |- context [let (_, _) := ?x in _] => destruct x as [? ?]
         end;
    cbn [snd]; rewrite <- ?app_assoc; eexists; (split; [reflexivity|]);
    intros args Ha; cbn in Ha;
    repeat (apply elem_of_cons in Ha as [Ha|Ha]; try discriminate Ha);
    try (by apply elem_of_nil in Ha).
  all: injection Ha as ->; by repeat split.
Qed.

(** C3: every search request an invocation of [rag_ML] makes carries
    community level 2, dynamic community selection off, the response type
    ["Multiple Paragraphs"] and the query.  Once the configuration and the
    three artifacts have loaded, the invocation makes exactly one such
    request, on the loaded data, and its outcome is the first component of
    the pair the search yields; the second component is dropped. *)
Theorem rag_ML_global_search lib query h :
  (∃ new,
     (rag_ML lib query h).2 = h ++ new
     ∧ ∀ a, EvGlobalSearch a ∈ new →
            fixed_parameters a ∧ RagServer.query a = query)
  ∧ (∀ cfg e c r,
       loaded lib h cfg e c r →
       ∃ a,
         config a = cfg ∧ entities a = e ∧ communities a = c
         ∧ community_reports a = r
         ∧ RagServer.query a = query
         ∧ fixed_parameters a
         ∧ rag_ML lib query h
           = (fst <$> global_search lib (h ++ loads) a,
              h ++ loads ++ [EvGlobalSearch a])).
Proof.
  split; [apply rag_ML_requests|].
  intros cfg e c r Hl.
  eexists {| config := cfg; entities := e; communities := c;
             community_reports := r; query := query |}.
  do 5 (split; [reflexivity|]). split; [by repeat split|].
  by apply rag_ML_loaded.
Qed.

End RagServerClaims.

Section RagServerSample.
Import RagServer RagServerSpec.

(** On the sample index the answer alone comes back. *)
Lemma rag_ML_sample_answer :
  (rag_ML sample_index "what is a decision tree?" []).1
  = Return "answer to: what is a decision tree?".
Proof. reflexivity. Qed.

Lemma rag_ML_global_search_witness :
  ∃ a,
    config a = "/root/autodl-tmp/MCP/mcp-graphrag/graphrag/settings.yaml"
    ∧ entities a = [entities_path]
    ∧ communities a = [communities_path]
    ∧ community_reports a = [community_reports_path]
    ∧ RagServer.query a = "what is a decision tree?"
    ∧ fixed_parameters a
    ∧ rag_ML sample_index "what is a decision tree?" []
      = (fst <$> global_search sample_index ([] ++ loads) a,
         [] ++ loads ++ [EvGlobalSearch a]).
Proof.
  apply (proj2 (rag_ML_global_search sample_index
                  "what is a decision tree?" [])).
  by repeat split.
Defined.

End RagServerSample.

(** ** More on the schema translator *)

Section TranslatorShape.
Import Translator TranslatorSpec.

(** What one loop turn keeps, and when. *)
Lemma convert_Some item out :
  convert item = Some out →
  ∃ f name description,
    accepted item ∧ descriptor item f
    ∧ f !! "name" = Some name ∧ f !! "description" = Some description
    ∧ out = expected_item f name description.
Proof.
  intros Hc. destruct (accepted_dec item) as [Ha|Hno].
  - destruct (Ha) as [_ [f Hdesc]].
    destruct (convert_accepted item f Ha Hdesc) as (n & de & Hn & Hd & Hc').
    exists f, n, de. rewrite Hc' in Hc. by simplify_eq.
  - rewrite convert_rejected in Hc by done. discriminate.
Qed.

Lemma convert_is_Some item : is_Some (convert item) ↔ accepted item.
Proof.
  split.
  - intros [out Hc]. by destruct (convert_Some _ _ Hc) as (? & ? & ? & ? & _).
  - intros Ha. destruct (Ha) as [_ [f Hdesc]].
    destruct (convert_accepted item f Ha Hdesc) as (n & de & _ & _ & ->).
    by eexists.
Qed.

Lemma expected_parameters_dom f :
  expected_parameters f = ∅
  ∨ ({[ "type"; "properties" ]} ⊆ dom (expected_parameters f)
     ∧ dom (expected_parameters f) ⊆ {[ "type"; "properties"; "required" ]}).
Proof.
  unfold expected_parameters.
  destruct (f !! "input_schema") as [[| | | | | |old_schema]|]; auto.
  right. destruct (old_schema !! "required");
    rewrite !dom_insert_L, dom_empty_L; split; intros k;
    rewrite !elem_of_union, !elem_of_singleton, ?elem_of_empty; tauto.
Qed.

(** An output item converts again, to itself without its parameters. *)
Lemma convert_expected_item f name description :
  convert (expected_item f name description)
  = Some (expected_item ∅ name description).
Proof.
  unfold convert, expected_item.
  erewrite (transform_item_accepted _ (VStr "function")
              {[ "name" := name; "description" := description;
                 "parameters" := VDict (expected_parameters f) ]}
              name description); reflexivity.
Qed.

(** X1: The call on a concatenation is the concatenation of the calls. *)
Theorem transform_json_app (l1 l2 : list value) :
  transform_json (l1 ++ l2)
  = (out1 ← transform_json l1; out2 ← transform_json l2; Return (out1 ++ out2)).
Proof.
  rewrite !transform_json_omap. cbn [mbind exc_bind]. by rewrite omap_app.
Qed.

Lemma length_omap_convert l : length (omap convert l) ≤ length l.
Proof.
  induction l as [|item l IH]; [done|]. cbn [omap list_omap].
  destruct (convert item); cbn; lia.
Qed.

(** X2: Nothing is lost exactly when every item is accepted, and nothing is
    kept exactly when no item is. *)
Theorem transform_json_all_or_nothing (json2_data : list value) :
  ∃ result,
    transform_json json2_data = Return result
    ∧ (length result = length json2_data ↔ Forall accepted json2_data)
    ∧ (result = [] ↔ Forall (λ item, ¬ accepted item) json2_data).
Proof.
  exists (omap convert json2_data). split; [apply transform_json_omap|].
  induction json2_data as [|item rest [IHall IHnone]].
  - split; split; intros; constructor.
  - cbn [omap list_omap]. pose proof (length_omap_convert rest) as Hle.
    destruct (convert item) as [out|] eqn:Hc.
    + assert (accepted item) as Ha by (apply convert_is_Some; eauto).
      split; split.
      * cbn. intros Hlen. constructor; [done|]. apply IHall. lia.
      * intros Hall. apply Forall_cons in Hall as [_ Hall].
        apply IHall in Hall. cbn. lia.
      * discriminate.
      * intros Hall. apply Forall_cons in Hall as [Hno _]. by destruct Hno.
    + assert (¬ accepted item) as Hno.
      { intros Ha. apply convert_is_Some in Ha as [? Ha]. congruence. }
      split; split.
      * cbn. lia.
      * intros Hall. apply Forall_cons in Hall as [Ha _]. by destruct Hno.
      * intros Hnil. constructor; [done|]. by apply IHnone.
      * intros Hall. apply Forall_cons in Hall as [_ Hall]. by apply IHnone.
Qed.

(** X3: Every output item has the two keys of the target envelope and no
    other; its function has name, description and parameters and no other
    key; its parameters are empty, or have type and properties and at most
    required besides. *)
Theorem transform_json_output_keys (json2_data : list value) :
  ∃ result,
    transform_json json2_data = Return result
    ∧ Forall (λ out,
        ∃ envelope new_func parameters,
          out = VDict envelope
          ∧ dom envelope = {[ "type"; "function" ]}
          ∧ envelope !! "type" = Some (VStr "function")
          ∧ envelope !! "function" = Some (VDict new_func)
          ∧ dom new_func = {[ "name"; "description"; "parameters" ]}
          ∧ new_func !! "parameters" = Some (VDict parameters)
          ∧ (parameters = ∅
             ∨ ({[ "type"; "properties" ]} ⊆ dom parameters
                ∧ dom parameters ⊆ {[ "type"; "properties"; "required" ]})))
        result.
Proof.
  exists (omap convert json2_data). split; [apply transform_json_omap|].
  apply Forall_forall. intros out Hin.
  apply list_elem_of_omap in Hin as (item & _ & Hc).
  apply convert_Some in Hc as (f & n & de & _ & _ & _ & _ & ->).
  eexists _, _, (expected_parameters f). split; [reflexivity|].
  split; [rewrite !dom_insert_L, dom_singleton_L; set_solver|].
  split; [reflexivity|]. split; [reflexivity|].
  split; [rewrite !dom_insert_L, dom_singleton_L; set_solver|].
  split; [reflexivity|]. apply expected_parameters_dom.
Qed.

(** A second pass leaves no parameters. *)
Lemma convert_twice_parameters (l : list value) :
  Forall (λ out, parameters_of out = Some (VDict ∅))
    (omap convert (omap convert l)).
Proof.
  apply Forall_forall. intros out' Hin.
  apply list_elem_of_omap in Hin as (out & Hin & Hc').
  apply list_elem_of_omap in Hin as (item & _ & Hc).
  apply convert_Some in Hc as (f & n & de & _ & _ & _ & _ & ->).
  rewrite convert_expected_item in Hc'. by simplify_eq.
Qed.

(** A dict schema leaves parameters in the first pass. *)
Lemma convert_keeps_schema (l : list value) item f old_schema :
  item ∈ l → accepted item → descriptor item f →
  f !! "input_schema" = Some (VDict old_schema) →
  ∃ out, out ∈ omap convert l ∧ parameters_of out ≠ Some (VDict ∅).
Proof.
  intros Hin Ha Hdesc Hs.
  destruct (convert_accepted item f Ha Hdesc) as (n & de & _ & _ & Hc).
  exists (expected_item f n de). split.
  - apply list_elem_of_omap. eauto.
  - cbn. unfold expected_parameters. rewrite Hs. intros [= Hp].
    apply (f_equal (λ p : gmap string value, p !! "properties")) in Hp.
    destruct (old_schema !! "required"); cbn in Hp; discriminate.
Qed.

(** X4: The translation is not idempotent.  Run on its own output it keeps
    every item, with the same name and description, and empties the
    parameters; that second output is a fixed point.  Whenever the input
    has an accepted item whose function carries a dict schema, the first
    output has an item with parameters, so the second output differs from
    the first. *)
Theorem transform_json_twice (json2_data : list value) :
  ∃ once twice,
    transform_json json2_data = Return once
    ∧ transform_json once = Return twice
    ∧ Forall2 (λ out out',
        (field "function" out' ≫= field "name")
        = (field "function" out ≫= field "name")
        ∧ (field "function" out' ≫= field "description")
          = (field "function" out ≫= field "description")
        ∧ parameters_of out' = Some (VDict ∅))
        once twice
    ∧ transform_json twice = Return twice
    ∧ (Exists (λ item,
         ∃ f old_schema,
           accepted item ∧ descriptor item f
           ∧ f !! "input_schema" = Some (VDict old_schema))
         json2_data →
       Exists (λ out, parameters_of out ≠ Some (VDict ∅)) once
       ∧ twice ≠ once).
Proof.
  exists (omap convert json2_data), (omap convert (omap convert json2_data)).
  rewrite !transform_json_omap. do 2 (split; [reflexivity|]).
  assert (Forall2 (λ out out',
        (field "function" out' ≫= field "name")
        = (field "function" out ≫= field "name")
        ∧ (field "function" out' ≫= field "description")
          = (field "function" out ≫= field "description")
        ∧ parameters_of out' = Some (VDict ∅))
        (omap convert json2_data) (omap convert (omap convert json2_data))
      ∧ Return (omap convert (omap convert (omap convert json2_data)))
        = Return (omap convert (omap convert json2_data))) as [Hrel Hfix].
  { induction json2_data as [|item rest [IH1 IH2]].
    - split; [constructor|reflexivity].
    - cbn [omap list_omap]. destruct (convert item) as [out|] eqn:Hc; [|done].
      apply convert_Some in Hc as (f & n & de & _ & _ & _ & _ & ->).
      cbn [omap list_omap]. rewrite convert_expected_item.
      cbn [omap list_omap]. rewrite convert_expected_item.
      split.
      + constructor; [by repeat split|done].
      + injection IH2 as IH2. by rewrite IH2. }
  do 2 (split; [done|]).
  intros Hex. apply Exists_exists in Hex
    as (item & Hin & f & old_schema & Ha & Hdesc & Hs).
  destruct (convert_keeps_schema _ _ _ _ Hin Ha Hdesc Hs) as (out & Hout & Hp).
  split.
  - apply Exists_exists. eauto.
  - intros Heq. rewrite <- Heq in Hout.
    pose proof (convert_twice_parameters json2_data) as Hall.
    rewrite Forall_forall in Hall. by apply Hp, Hall.
Qed.

(** On the search tool of the specification: the second output is not the
    first. *)
Lemma transform_json_twice_sample :
  ∃ once twice,
    transform_json [search_tool] = Return once
    ∧ transform_json once = Return twice
    ∧ transform_json twice = Return twice
    ∧ twice ≠ once.
Proof.
  destruct (transform_json_twice [search_tool])
    as (once & twice & H1 & H2 & _ & H3 & Hne).
  exists once, twice. do 3 (split; [assumption|]).
  apply Hne. constructor. exists search_func, search_schema.
  split; [|split]; [| |reflexivity].
  - split; [by eexists|]. exists search_func. repeat split; by eexists.
  - repeat split; by eexists.
Defined.

End TranslatorShape.

(** ** More on the connection manager *)

Section ClientStateMachine.
Import Client ClientSpec ClientStates.

Lemma string_length_app (s t : string) :
  String.length (s +:+ t) = String.length s + String.length t.
Proof. induction s as [|a s IH]; [done|]. simpl. by f_equal. Qed.

(** Two suffixes of one length at the end of one string are equal. *)
Lemma app_suffix_inj (s s' t t' : string) :
  String.length t = String.length t' → s +:+ t = s' +:+ t' → t = t'.
Proof.
  intros Hlen. revert s'. induction s as [|a s IH]; intros [|b s'] Heq.
  - done.
  - apply (f_equal String.length) in Heq.
    rewrite !string_length_app in Heq. cbn in Heq. lia.
  - apply (f_equal String.length) in Heq.
    rewrite !string_length_app in Heq. cbn in Heq. lia.
  - injection Heq as _ Heq. by apply (IH s').
Qed.

Lemma endswith_app stem suffix : endswith (stem +:+ suffix) suffix = true.
Proof. apply endswith_spec. by exists stem. Qed.

Lemma endswith_js_not_py stem : endswith (stem +:+ ".js") ".py" = false.
Proof.
  apply endswith_false. intros stem' Heq.
  by apply app_suffix_inj in Heq.
Qed.

Lemma endswith_supported path :
  endswith path ".py" || endswith path ".js" = true → supported path.
Proof.
  intros Hor. apply orb_true_iff in Hor as [He|He];
    apply endswith_spec in He as [stem ->]; exists stem; auto.
Qed.

(** An attempt starts by launching the server. *)
Lemma connect_attempt_launches lib st path :
  session (self st) = None →
  supported path →
  ∃ rest,
    history (connect_and_list_tools lib path st).2
    = history st ++ EvSpawn (server_params_for path) :: rest.
Proof.
  intros Hs Hp. rewrite (connect_attempt _ _ _ Hs Hp). run_M.
  library_answers; try (by eauto);
    rewrite cleanup_outcome; destruct (exit_all lib _ None _).1;
    cbn; rewrite <- ?app_assoc; cbn; eauto.
Qed.

(** X5: [__init__] raises [ValueError] when the API key is missing or empty.
    With a key it calls the OpenAI constructor on the key and the base URL:
    when that raises, [__init__] raises the same exception; when it returns,
    [__init__] returns an idle instance that holds the key, the optional
    base URL and model, and the client the constructor returned. *)
Theorem init_requires_api_key
    (new_OpenAI : string → option string → exc OpenAI)
    (environ : gmap string string) :
  (environ !! "OPENAI_API_KEY" = None ∨ environ !! "OPENAI_API_KEY" = Some "" →
   ∃ msg, init new_OpenAI environ = Raise (ValueError msg))
  ∧ (∀ key e,
       environ !! "OPENAI_API_KEY" = Some key → key ≠ "" →
       new_OpenAI key (environ !! "BASE_URL") = Raise e →
       init new_OpenAI environ = Raise e)
  ∧ (∀ key cl,
       environ !! "OPENAI_API_KEY" = Some key → key ≠ "" →
       new_OpenAI key (environ !! "BASE_URL") = Return cl →
       ∃ c, init new_OpenAI environ = Return c
            ∧ openai_api_key c = key
            ∧ base_url c = environ !! "BASE_URL"
            ∧ model c = environ !! "MODEL"
            ∧ client c = cl
            ∧ idle c).
Proof.
  unfold init. split; [|split].
  - intros [-> | ->]; eauto.
  - intros key e -> Hne Hnew. destruct key as [|a key]; [done|].
    by rewrite Hnew.
  - intros key cl -> Hne Hnew. destruct key as [|a key]; [done|].
    rewrite Hnew. eexists. split; [reflexivity|]. by repeat split.
Qed.

(** A malformed base URL stops the construction, a well-formed one does
    not. *)
Lemma init_requires_api_key_sample :
  init strict_OpenAI
    {[ "OPENAI_API_KEY" := "sk-test"; "BASE_URL" := "localhost:8000" ]}
  = Raise (LibraryError "InvalidURL" "localhost:8000")
  ∧ ∃ c, init strict_OpenAI
           {[ "OPENAI_API_KEY" := "sk-test";
              "BASE_URL" := "http://localhost:8000/v1" ]}
         = Return c
         ∧ openai_api_key c = "sk-test"
         ∧ base_url c = Some "http://localhost:8000/v1"
         ∧ model c = None
         ∧ client c = {| api_key := "sk-test";
                         api_base_url := Some "http://localhost:8000/v1" |}
         ∧ idle c.
Proof.
  split.
  - by apply (proj1 (proj2 (init_requires_api_key strict_OpenAI
        {[ "OPENAI_API_KEY" := "sk-test"; "BASE_URL" := "localhost:8000" ]}))
        "sk-test").
  - exact (proj2 (proj2 (init_requires_api_key strict_OpenAI
        {[ "OPENAI_API_KEY" := "sk-test";
           "BASE_URL" := "http://localhost:8000/v1" ]}))
        "sk-test"
        {| api_key := "sk-test";
           api_base_url := Some "http://localhost:8000/v1" |}
        eq_refl ltac:(done) eq_refl).
Defined.

(** X6: The script type picks the launch command: [python] for a path ending
    in [.py], [node] for one ending in [.js]; the path is the only argument
    and no environment is passed. *)
Theorem connect_launch_command (lib : Library) (st : state) (stem : string) :
  session (self st) = None →
  (∃ rest,
     history (connect_and_list_tools lib (stem +:+ ".py") st).2
     = history st
       ++ EvSpawn {| command := "python"; args := [stem +:+ ".py"];
                     env := None |} :: rest)
  ∧ (∃ rest,
       history (connect_and_list_tools lib (stem +:+ ".js") st).2
       = history st
         ++ EvSpawn {| command := "node"; args := [stem +:+ ".js"];
                       env := None |} :: rest).
Proof.
  intros Hs. split.
  - destruct (connect_attempt_launches lib st (stem +:+ ".py") Hs)
      as [rest Hh]; [exists stem; auto|].
    exists rest. rewrite Hh. unfold server_params_for.
    by rewrite endswith_app.
  - destruct (connect_attempt_launches lib st (stem +:+ ".js") Hs)
      as [rest Hh]; [exists stem; auto|].
    exists rest. rewrite Hh. unfold server_params_for.
    by rewrite endswith_js_not_py.
Qed.

Lemma connect_launch_command_witness :
  (∃ rest,
     history (connect_and_list_tools no_interpreter ("tools/server" +:+ ".py")
                fresh).2
     = history fresh
       ++ EvSpawn {| command := "python"; args := ["tools/server" +:+ ".py"];
                     env := None |} :: rest)
  ∧ (∃ rest,
       history (connect_and_list_tools no_interpreter ("tools/server" +:+ ".js")
                  fresh).2
       = history fresh
         ++ EvSpawn {| command := "node"; args := ["tools/server" +:+ ".js"];
                       env := None |} :: rest).
Proof.
  apply (connect_launch_command no_interpreter fresh "tools/server").
  reflexivity.
Defined.

Lemma connect_success_witness :
  ∃ st', connect_and_list_tools good_server "rag_server.py" fresh
         = (Return [rag_tool], st')
         ∧ session (self st') = Some sample_session
         ∧ stdio_read (self st') = Some 3%N
         ∧ stdio_write (self st') = Some 4%N
         ∧ exit_stack (self st')
           = Session sample_session
               :: Transport (server_params_for "rag_server.py") 3%N 4%N
               :: exit_stack (self fresh).
Proof.
  apply (connect_success good_server fresh "rag_server.py" 3%N 4%N [rag_tool]);
    try reflexivity.
  exists "rag_server". by left.
Defined.

(** What a call leaves of a consistent client that had no session: the
    lemma behind the facts on the states of the client. *)
Lemma connect_from_no_session lib path st :
  consistent (self st) →
  session (self st) = None →
  let '(r, st') := connect_and_list_tools lib path st in
  consistent (self st')
  ∧ same_settings (self st) (self st')
  ∧ match r with
    | Return _ =>
        ∃ server_params read write,
          connected_over server_params read write (self st')
    | Raise _ => exit_stack (self st') = []
    end.
Proof.
  intros [[Hx|(sp & r & w & Hc & _)] Hstreams] Hs; [|congruence].
  destruct (endswith path ".py" || endswith path ".js") eqn:Hsuffix.
  - rewrite (connect_attempt _ _ _ Hs (endswith_supported _ Hsuffix)).
    destruct st as [[stack key url mdl cl se sr sw] h].
    cbn in Hs, Hx. subst. clear Hstreams. run_M.
    library_answers; try run_cleanup; exit_answers;
      (split; [split; [first [by left | right; by eexists _, _, _]
                      |intros ? [=]; by subst]
              |split; [done|first [done | by eexists _, _, _]]]).
  - run_M. rewrite Hs, Hsuffix. cbn.
    split; [by split; [left|]|]. by split.
Qed.

(** X8: The states of the client are the consistent ones: the exit stack is
    empty or holds the session over its transport, and a session that is
    set goes with its two streams.  [__init__] builds such a state, and
    [connect_and_list_tools] and [cleanup] keep it, without touching the
    API key, base URL, model or OpenAI client.  From a state with no
    session, a call that returns leaves the client Connected, and a call
    that raises leaves the exit stack empty. *)
Theorem connect_and_cleanup_keep_consistent :
  (∀ new_OpenAI environ c, init new_OpenAI environ = Return c → consistent c)
  ∧ (∀ lib path st,
       consistent (self st) →
       consistent (self (connect_and_list_tools lib path st).2)
       ∧ same_settings (self st) (self (connect_and_list_tools lib path st).2))
  ∧ (∀ lib st,
       consistent (self st) →
       consistent (self (cleanup lib st).2)
       ∧ same_settings (self st) (self (cleanup lib st).2))
  ∧ (∀ lib path st tools st',
       consistent (self st) → session (self st) = None →
       connect_and_list_tools lib path st = (Return tools, st') →
       ∃ server_params read write,
         connected_over server_params read write (self st'))
  ∧ (∀ lib path st e st',
       consistent (self st) → session (self st) = None →
       connect_and_list_tools lib path st = (Raise e, st') →
       exit_stack (self st') = []).
Proof.
  split; [|split; [|split; [|split]]].
  - intros new_OpenAI environ c Hi.
    destruct (init_disconnected _ _ _ Hi) as [(Hs & _) Hx].
    split; [by left|]. intros sess Hsess. congruence.
  - intros lib path st Hcon.
    destruct (session (self st)) as [sess|] eqn:Hs.
    + run_M. rewrite Hs.
      by destruct (list_tools lib (history st) sess).
    + pose proof (connect_from_no_session lib path st Hcon Hs) as Hrun.
      destruct (connect_and_list_tools lib path st) as [r st'].
      by destruct Hrun as (? & ? & _).
  - intros lib st [Hstack Hstreams]. rewrite cleanup_outcome.
    destruct (exit_all lib _ None _).1; cbn.
    + split; [|done]. split; [by left|]. apply Hstreams.
    + split; [|done]. split; [by left|]. intros sess [=].
  - intros lib path st tools st' Hcon Hs Hrun.
    pose proof (connect_from_no_session lib path st Hcon Hs) as Hst.
    rewrite Hrun in Hst. by destruct Hst as (_ & _ & ?).
  - intros lib path st e st' Hcon Hs Hrun.
    pose proof (connect_from_no_session lib path st Hcon Hs) as Hst.
    rewrite Hrun in Hst. by destruct Hst as (_ & _ & ?).
Qed.

(** The same on sample runs: a handshake that fails over a transport that
    cannot be closed leaves the session set over an empty exit stack, which
    is consistent and neither idle nor Connected. *)
Lemma connect_and_cleanup_keep_consistent_sample :
  consistent
    (self (connect_and_list_tools deaf_stuck_server "rag_server.py" fresh).2)
  ∧ exit_stack
      (self (connect_and_list_tools deaf_stuck_server "rag_server.py" fresh).2)
    = [].
Proof.
  split.
  - apply (proj1 (proj2 connect_and_cleanup_keep_consistent)
             deaf_stuck_server "rag_server.py" fresh).
    split; [by left|]. intros sess [=].
  - apply (proj2 (proj2 (proj2 (proj2 connect_and_cleanup_keep_consistent)))
             deaf_stuck_server "rag_server.py" fresh
             (LibraryError "ProcessLookupError" "no such process")).
    + split; [by left|]. intros sess [=].
    + reflexivity.
    + by vm_compute.
Defined.

(** After a call on an idle client: a [cleanup] that returns hands back
    the client the call started from; after a call that raised, [cleanup]
    does return. *)
Lemma connect_then_cleanup lib lib' path st :
  idle (self st) →
  let st1 := (connect_and_list_tools lib path st).2 in
  ((cleanup lib' st1).1 = Return tt → self (cleanup lib' st1).2 = self st)
  ∧ (∀ e, (connect_and_list_tools lib path st).1 = Raise e →
          (cleanup lib' st1).1 = Return tt).
Proof.
  intros [(Hs & Hr & Hw) Hx].
  destruct (endswith path ".py" || endswith path ".js") eqn:Hsuffix.
  - rewrite (connect_attempt _ _ _ Hs (endswith_supported _ Hsuffix)).
    destruct st as [[stack key url mdl cl se sr sw] h].
    cbn in Hs, Hr, Hw, Hx. subst. run_M.
    library_answers; try run_cleanup; exit_answers;
      run_cleanup; exit_answers;
      (split; [first [done | by intros [=]]|first [done | by intros ? [=]]]).
  - run_M. rewrite Hs, Hsuffix. cbn.
    rewrite cleanup_empty by done. cbn. split; [|done].
    intros _. by apply cleared_id.
Qed.

(** X9: [cleanup] after [connect_and_list_tools] on an idle client: when it
    returns normally, the client is exactly the one the call started from,
    for every path and every answer of the server; and after a call that
    raised it always returns normally. *)
Theorem connect_then_cleanup_restores
    (lib lib' : Library) (path : string) (st : state) :
  idle (self st) →
  ((cleanup lib' (connect_and_list_tools lib path st).2).1 = Return tt →
   self (cleanup lib' (connect_and_list_tools lib path st).2).2 = self st)
  ∧ (∀ e, (connect_and_list_tools lib path st).1 = Raise e →
          (cleanup lib' (connect_and_list_tools lib path st).2).1 = Return tt).
Proof. intros Hidle. by apply connect_then_cleanup. Qed.

Lemma connect_then_cleanup_restores_witness :
  (cleanup good_server
     (connect_and_list_tools deaf_stuck_server "rag_server.py" fresh).2).1
  = Return tt
  ∧ self (cleanup good_server
            (connect_and_list_tools deaf_stuck_server "rag_server.py"
               fresh).2).2
    = self fresh.
Proof.
  destruct (connect_then_cleanup_restores deaf_stuck_server good_server
              "rag_server.py" fresh) as [Hrestores Hreturns].
  - by repeat split.
  - assert ((cleanup good_server
               (connect_and_list_tools deaf_stuck_server "rag_server.py"
                  fresh).2).1 = Return tt) as Hret.
    { apply (Hreturns (LibraryError "ProcessLookupError" "no such process")).
      by vm_compute. }
    split; [exact Hret|]. by apply Hrestores.
Defined.

(** X10: A call that returns leaves a session behind, so the next call, with any
    path, launches nothing: it makes one tool-list request on that session
    and its outcome is the answer. *)
Theorem connect_after_success_only_lists
    (lib lib' : Library) (path path' : string) (st st1 : state)
    (tools : list Tool) :
  connect_and_list_tools lib path st = (Return tools, st1) →
  ∃ sess,
    session (self st1) = Some sess
    ∧ connect_and_list_tools lib' path' st1
      = (list_tools lib' (history st1) sess,
         {| self := self st1; history := history st1 ++ [EvListTools sess] |}).
Proof.
  intros Hrun.
  assert (∃ sess, session (self st1) = Some sess) as [sess Hs1].
  { destruct (session (self st)) as [sess|] eqn:Hs.
    - revert Hrun. run_M. rewrite Hs.
      destruct (list_tools lib (history st) sess); intros Hrun;
        simplify_eq. cbn. eauto.
    - destruct (endswith path ".py" || endswith path ".js") eqn:Hsuffix.
      + revert Hrun.
        rewrite (connect_attempt _ _ _ Hs (endswith_supported _ Hsuffix)).
        run_M. library_answers;
          try (rewrite cleanup_outcome; destruct (exit_all lib _ None _).1);
          intros Hrun; simplify_eq. cbn. eauto.
      + revert Hrun. run_M. rewrite Hs, Hsuffix. cbn. intros Hrun.
        simplify_eq. }
  exists sess. split; [done|]. run_M. rewrite Hs1.
  destruct (list_tools lib' (history st1) sess); reflexivity.
Qed.

Lemma connect_after_success_only_lists_witness :
  ∃ sess,
    session (self connected) = Some sess
    ∧ connect_and_list_tools deaf_server "another.js" connected
      = (list_tools deaf_server (history connected) sess,
         {| self := self connected;
            history := history connected ++ [EvListTools sess] |}).
Proof.
  apply (connect_after_success_only_lists good_server deaf_server
           "rag_server.py" "another.js" fresh connected [rag_tool]).
  reflexivity.
Defined.

(** X11: After a call that raised on an idle client, nothing is left on the
    exit stack, even when the handler's own [cleanup] raised: a [cleanup]
    then returns normally, and the next call with a supported path starts
    over by launching a server. *)
Theorem connect_retry_after_failure
    (lib lib' lib'' : Library) (path path' : string) (st st1 : state)
    (e : exn) :
  idle (self st) →
  connect_and_list_tools lib path st = (Raise e, st1) →
  supported path' →
  ∃ st2 rest,
    cleanup lib' st1 = (Return tt, st2)
    ∧ history (connect_and_list_tools lib'' path' st2).2
      = history st2 ++ EvSpawn (server_params_for path') :: rest.
Proof.
  intros [(Hs & Hr & Hw) Hx] Hrun Hp'.
  assert (consistent (self st)) as Hcon.
  { split; [by left|]. intros sess Hsess. congruence. }
  pose proof (connect_from_no_session lib path st Hcon Hs) as Hst.
  rewrite Hrun in Hst. destruct Hst as (_ & _ & Hx1).
  pose proof (cleanup_empty lib' st1 Hx1) as Hclean.
  destruct (connect_attempt_launches lib''
              {| self := cleared (self st1); history := history st1 |} path')
    as [rest Hh]; [done|done|].
  by eexists _, rest.
Qed.

Lemma connect_retry_after_failure_witness :
  ∃ st2 rest,
    cleanup good_server
      (connect_and_list_tools deaf_stuck_server "rag_server.py" fresh).2
    = (Return tt, st2)
    ∧ history (connect_and_list_tools good_server "index.js" st2).2
      = history st2 ++ EvSpawn (server_params_for "index.js") :: rest.
Proof.
  apply (connect_retry_after_failure deaf_stuck_server good_server good_server
           "rag_server.py" "index.js" fresh
           (connect_and_list_tools deaf_stuck_server "rag_server.py" fresh).2
           (LibraryError "ProcessLookupError" "no such process")).
  - by repeat split.
  - by vm_compute.
  - exists "index". by right.
Defined.

End ClientStateMachine.

(** ** The demonstration flow *)

Section ExampleFlow.
Import Client ClientSpec ClientStates Example.

(** The flow from an idle client: it launches [python rag_server.py] and
    ends with nothing on the exit stack; a failed attempt does not get out
    of it, and neither outcome of the attempt does when the exits of the
    final [cleanup] complete; when the flow returns, the client is as it
    was. *)
Lemma example_flow_run lib st :
  idle (self st) →
  let '(r1, st1) := connect_and_list_tools lib "rag_server.py" st in
  let '(r, st') := example_flow lib st in
  exit_stack (self st') = []
  ∧ (r = Return tt → self st' = self st)
  ∧ (∀ e, r1 = Raise e → r = Return tt)
  ∧ (exits_complete lib (history st1) (exit_stack (self st1)) → r = Return tt)
  ∧ ∃ rest,
      history st'
      = history st
        ++ EvSpawn {| command := "python"; args := ["rag_server.py"];
                      env := None |} :: rest.
Proof.
  intros [(Hs & Hr & Hw) Hx]. unfold example_flow, try_finally.
  unfold try_except at 1, mbind at 1, M_bind at 1.
  rewrite (connect_attempt lib st "rag_server.py" Hs)
    by (exists "rag_server"; by left).
  change (server_params_for "rag_server.py")
    with {| command := "python"; args := ["rag_server.py"]; env := None |}.
  destruct st as [[stack key url mdl cl se sr sw] h].
  cbn in Hs, Hr, Hw, Hx. subst. run_M.
  library_answers; try run_cleanup; exit_answers;
    run_cleanup; exit_answers;
    (split; [done|]); (split; [first [done | by intros [=]]|]);
    (split; [first [done | by intros ? [=]]|]);
    (split; [|by eexists]);
    first [done | intros ([? [=]] & [? [=]] & _)].
Qed.

(** X12: In [run_example], a failure of the connection attempt never gets
    out of the [try] block, even when the [cleanup] inside the handler
    raised, and the [finally] then leaves the client as it was built.
    After a successful connection the [finally] exits session and
    transport: the flow returns normally when those exits complete, and
    whenever it returns the client is as it was built.  In every case
    nothing is left on the exit stack. *)
Theorem example_flow_swallows_and_cleans_up (lib : Library) (st : state) :
  idle (self st) →
  exit_stack (self (example_flow lib st).2) = []
  ∧ ((example_flow lib st).1 = Return tt →
     self (example_flow lib st).2 = self st)
  ∧ (∀ e, (connect_and_list_tools lib "rag_server.py" st).1 = Raise e →
          (example_flow lib st).1 = Return tt)
  ∧ (exits_complete lib
       (history (connect_and_list_tools lib "rag_server.py" st).2)
       (exit_stack (self (connect_and_list_tools lib "rag_server.py" st).2)) →
     (example_flow lib st).1 = Return tt).
Proof.
  intros Hidle. pose proof (example_flow_run lib st Hidle) as Hrun.
  destruct (connect_and_list_tools lib "rag_server.py" st) as [r1 st1].
  destruct (example_flow lib st) as [r st'].
  by destruct Hrun as (? & ? & ? & ? & _).
Qed.

Lemma example_flow_swallows_and_cleans_up_witness :
  (example_flow deaf_stuck_server fresh).1 = Return tt
  ∧ self (example_flow deaf_stuck_server fresh).2 = self fresh
  ∧ exit_stack (self (example_flow deaf_stuck_server fresh).2) = [].
Proof.
  destruct (example_flow_swallows_and_cleans_up deaf_stuck_server fresh)
    as (Hstack & Hrestores & Hswallows & _).
  - by repeat split.
  - assert ((example_flow deaf_stuck_server fresh).1 = Return tt) as Hret.
    { apply (Hswallows (LibraryError "ProcessLookupError" "no such process")).
      by vm_compute. }
    split; [exact Hret|]. split; [by apply Hrestores|exact Hstack].
Defined.

(** X13: [run_example] builds the client outside the [try]: when [__init__]
    raises, for a missing key or a rejected base URL, that exception leaves
    [run_example] before any request is made.  Otherwise the first request
    is the launch of [python rag_server.py], and a failure of the
    connection attempt does not leave [run_example]. *)
Theorem run_example_outcome
    (new_OpenAI : string → option string → exc OpenAI)
    (lib : Library) (environ : gmap string string) (h : list event) :
  (∀ e, init new_OpenAI environ = Raise e →
        run_example new_OpenAI lib environ h = (Raise e, h))
  ∧ (∀ c, init new_OpenAI environ = Return c →
          (∃ rest,
             (run_example new_OpenAI lib environ h).2
             = h ++ EvSpawn {| command := "python"; args := ["rag_server.py"];
                               env := None |} :: rest)
          ∧ (∀ e,
               (connect_and_list_tools lib "rag_server.py"
                  {| self := c; history := h |}).1 = Raise e →
               (run_example new_OpenAI lib environ h).1 = Return tt)).
Proof.
  unfold run_example. split.
  - by intros e ->.
  - intros c Hi. rewrite Hi.
    destruct (init_disconnected _ _ _ Hi) as [Hd Hx].
    pose proof (example_flow_run lib {| self := c; history := h |}
                  (conj Hd Hx)) as Hrun.
    destruct (connect_and_list_tools lib "rag_server.py" _) as [r1 st1].
    destruct (example_flow lib _) as [r st'].
    destruct Hrun as (_ & _ & Hswallow & _ & rest & Hh). cbn. split.
    + by exists rest.
    + apply Hswallow.
Qed.

Lemma run_example_outcome_sample :
  run_example strict_OpenAI good_server
    {[ "OPENAI_API_KEY" := "sk-test"; "BASE_URL" := "localhost:8000" ]} []
  = (Raise (LibraryError "InvalidURL" "localhost:8000"), [])
  ∧ (run_example lenient_OpenAI deaf_stuck_server sample_environ []).1
    = Return tt.
Proof.
  split.
  - by apply (proj1 (run_example_outcome strict_OpenAI good_server
        {[ "OPENAI_API_KEY" := "sk-test"; "BASE_URL" := "localhost:8000" ]}
        [])).
  - by apply (proj2 (proj2 (run_example_outcome lenient_OpenAI
        deaf_stuck_server sample_environ []) fresh_client eq_refl)
        (LibraryError "ProcessLookupError" "no such process")).
Defined.

End ExampleFlow.

(** ** More on the retrieval tool *)

Section RagServerFailures.
Import RagServer RagServerSpec RagFailures.
Context {Config DataFrame Response SearchContext : Type}.
Implicit Types (lib : Library Config DataFrame Response SearchContext)
  (h : list (event Config DataFrame)).

Ltac rag_paths :=
  unfold rag_ML, RagServer.request, mbind, M_bind, mret, M_ret;
  change (PROJECT_DIRECTORY +:+ "/output/entities.parquet") with entities_path;
  change (PROJECT_DIRECTORY +:+ "/output/communities.parquet")
    with communities_path;
  change (PROJECT_DIRECTORY +:+ "/output/community_reports.parquet")
    with community_reports_path;
  change PROJECT_DIRECTORY with "/root/autodl-tmp/MCP/mcp-graphrag/graphrag".

(** X14: A load that fails ends the invocation: [rag_ML] raises that exception,
    makes no later request, and never reaches the search. *)
Theorem rag_ML_load_failure lib (query : string) h (e : exn)
    (requests : list (event Config DataFrame)) :
  load_failure lib h e requests →
  rag_ML lib query h = (Raise e, h ++ requests)
  ∧ existsb is_search requests = false.
Proof.
  intros Hfail. split; [|by destruct Hfail].
  destruct Hfail as [Hcfg|cfg Hcfg He|cfg en Hcfg He Hc|cfg en co Hcfg He Hc Hr];
    rag_paths; rewrite Hcfg; [reflexivity|..];
    change (h ++ [EvLoadConfig "/root/autodl-tmp/MCP/mcp-graphrag/graphrag"])
      with (h ++ take 1 (@loads Config DataFrame));
    rewrite He; [by rewrite <- app_assoc|..];
    rewrite <- app_assoc;
    change (h ++ take 1 loads ++ [EvReadParquet entities_path])
      with (h ++ take 2 (@loads Config DataFrame));
    rewrite Hc; [by rewrite <- app_assoc|];
    rewrite <- app_assoc;
    change (h ++ take 2 loads ++ [EvReadParquet communities_path])
      with (h ++ take 3 (@loads Config DataFrame));
    rewrite Hr; by rewrite <- app_assoc.
Qed.

(** X15: Nothing is cached between invocations: the second of two invocations
    loads the configuration and the three artifacts again, and searches on
    what those loads returned, not on the data of the first. *)
Theorem rag_ML_reloads_every_time lib (q1 q2 : string) h
    (cfg cfg' : Config) (e c r e' c' r' : DataFrame)
    (response : Response) (context : SearchContext) :
  loaded lib h cfg e c r →
  global_search lib (h ++ loads) (search_call cfg e c r q1)
    = Return (response, context) →
  loaded lib (h ++ loads ++ [EvGlobalSearch (search_call cfg e c r q1)])
    cfg' e' c' r' →
  (rag_ML lib q1 ≫= λ _, rag_ML lib q2) h
  = (fst <$> global_search lib
               ((h ++ loads ++ [EvGlobalSearch (search_call cfg e c r q1)])
                  ++ loads)
               (search_call cfg' e' c' r' q2),
     (h ++ loads ++ [EvGlobalSearch (search_call cfg e c r q1)])
       ++ loads ++ [EvGlobalSearch (search_call cfg' e' c' r' q2)]).
Proof.
  intros Hl1 Hs1 Hl2.
  unfold mbind at 1, M_bind at 1.
  rewrite (rag_ML_loaded lib q1 h cfg e c r Hl1).
  fold (search_call cfg e c r q1). rewrite Hs1. cbn [fmap exc_fmap fst].
  apply (rag_ML_loaded lib q2 _ cfg' e' c' r' Hl2).
Qed.

End RagServerFailures.

Section RagServerFailureSamples.
Import RagServer RagServerSpec RagFailures.

Lemma rag_ML_load_failure_witness :
  rag_ML broken_index "what is entropy?" []
  = (Raise (FileNotFoundError communities_path), [] ++ take 3 loads)
  ∧ existsb is_search (take 3 (@loads string (list string))) = false.
Proof.
  apply (rag_ML_load_failure broken_index "what is entropy?" []
           (FileNotFoundError communities_path) (take 3 loads)).
  by apply (communities_fail broken_index []
              (FileNotFoundError communities_path)
              "/root/autodl-tmp/MCP/mcp-graphrag/graphrag/settings.yaml"
              [entities_path]).
Defined.

Lemma rag_ML_reloads_every_time_witness :
  (rag_ML rebuilt_index "first" ≫= λ _, rag_ML rebuilt_index "second") []
  = (Return "answer to: second",
     ([] ++ loads
         ++ [EvGlobalSearch
               (search_call
                  "/root/autodl-tmp/MCP/mcp-graphrag/graphrag/settings.yaml"
                  [entities_path] [communities_path] [community_reports_path]
                  "first")])
       ++ loads
       ++ [EvGlobalSearch
             (search_call
                "/root/autodl-tmp/MCP/mcp-graphrag/graphrag/settings.yaml"
                [entities_path; "row added by reindexing"]
                [communities_path; "row added by reindexing"]
                [community_reports_path; "row added by reindexing"]
                "second")]).
Proof.
  apply (rag_ML_reloads_every_time rebuilt_index "first" "second" []
           "/root/autodl-tmp/MCP/mcp-graphrag/graphrag/settings.yaml"
           "/root/autodl-tmp/MCP/mcp-graphrag/graphrag/settings.yaml"
           [entities_path] [communities_path] [community_reports_path]
           [entities_path; "row added by reindexing"]
           [communities_path; "row added by reindexing"]
           [community_reports_path; "row added by reindexing"]
           "answer to: first" 1).
  - by repeat split.
  - reflexivity.
  - by repeat split.
Defined.

End RagServerFailureSamples.
